(** * Queue insights service: a shallow embedding of
    [app/services/queue_insights.py] and the properties of its dual-mode
    (AI / rule-based) insight generation. *)

From Stdlib Require Import ZArith QArith Qround Qabs String Ascii List Permutation Lia Bool.
From Stdlib Require Import DecimalString Qpower.
From stdpp Require Import base option list strings gmap.
Import ListNotations.
Local Open Scope string_scope.
Local Open Scope list_scope.
Local Open Scope Z_scope.

(** ** Python values used by the service *)

(** The exceptions the modelled code can raise.  [OtherException] stands for
    whatever the OpenAI client raises (transport errors, API errors, ...). *)
Inductive exn : Type :=
  | ZeroDivisionError
  | OverflowError
  | ValueError
  | IndexError
  | AttributeError
  | TypeError
  | OtherException (msg : string).

(** A computation that returns a value or raises. *)
Inductive result (A : Type) : Type :=
  | Ok (a : A)
  | Raise (e : exn).
Arguments Ok {A} a.
Arguments Raise {A} e.

Definition result_bind {A B : Type} (m : result A) (k : A -> result B) : result B :=
  match m with
  | Ok a => k a
  | Raise e => Raise e
  end.

Notation "'let*' x := m 'in' k" := (result_bind m (fun x => k))
  (at level 10, x pattern, m at level 100, k at level 200).

(** Python floats are IEEE-754 binary64 numbers.  A finite float is modelled
    by the rational number it denotes, so that comparisons between floats, and
    between a float and an int, are the exact comparisons Python performs. *)
Definition float : Type := Q.

Definition float_gt (x y : float) : bool := negb (Qle_bool x y).

(** [pow2 e] is the rational 2^e for any integer [e]. *)
Definition pow2 (e : Z) : Q := Qpower 2 e.

(** [ilog2_quot a b] is floor(log2 (a / b)) for positive [a] and [b]. *)
Definition ilog2_quot (a b : Z) : Z :=
  let d := Z.log2 a - Z.log2 b in
  if b * 2 ^ Z.max d 0 <=? a * 2 ^ Z.max (- d) 0 then d else d - 1.

(** Round the positive rational [a / b] to the nearest multiple of 2^e,
    ties to the even multiple; the result is the integer multiplier. *)
Definition round_half_even_scaled (a b e : Z) : Z :=
  let num := a * 2 ^ Z.max (- e) 0 in
  let den := b * 2 ^ Z.max e 0 in
  let q := num / den in
  let r := num mod den in
  if (den <? 2 * r) || ((den =? 2 * r) && Z.odd q) then q + 1 else q.

(** The binary64 number nearest to [a / b] for positive [a], [b] (53-bit
    significand, least exponent -1074), as (significand, exponent). *)
Definition round_binary64 (a b : Z) : Z * Z :=
  let e := Z.max (ilog2_quot a b - 52) (-1074) in
  (round_half_even_scaled a b e, e).

(** Python's [a / b] on ints: the correctly rounded quotient as a float;
    ZeroDivisionError for a zero divisor and OverflowError when the rounded
    quotient [m * 2^e] reaches 2^1024. *)
Definition truediv (a b : Z) : result float :=
  if b =? 0 then Raise ZeroDivisionError
  else if a =? 0 then Ok 0%Q
  else
    let '(m, e) := round_binary64 (Z.abs a) (Z.abs b) in
    if 2 ^ 1024 * 2 ^ Z.max (- e) 0 <=? m * 2 ^ Z.max e 0 then Raise OverflowError
    else Ok (inject_Z (Z.sgn a * Z.sgn b * m) * pow2 e)%Q.

(** ** Strings *)

Definition NL : string := String (ascii_of_nat 10) EmptyString.

(** [sep.join(parts)]. *)
Definition join (sep : string) (parts : list string) : string := String.concat sep parts.

(** [str(n)] for an int. *)
Definition str_int (n : Z) : string := NilZero.string_of_int (Z.to_int n).

(** Round a non-negative rational to the nearest integer, ties to even. *)
Definition round_half_even (x : Q) : Z :=
  let fl := Qfloor x in
  let frac := (x - inject_Z fl)%Q in
  match (frac ?= 1 # 2)%Q with
  | Lt => fl
  | Gt => fl + 1
  | Eq => if Z.even fl then fl else fl + 1
  end.

(** [f"{x:.1f}"]: the decimal numeral with one fractional digit nearest to the
    exact value of the float, ties to even. *)
Definition format_1f (x : float) : string :=
  let n := round_half_even (Qabs x * 10) in
  let body := str_int (n / 10) +:+ "." +:+ str_int (n mod 10) in
  if Qle_bool 0 x then body else "-" +:+ body.

(** Zero-padded decimal of a non-negative int, as [%02d] and [%04d]. *)
Definition pad_int (width : nat) (n : Z) : string :=
  let s := str_int n in
  String.concat EmptyString (repeat "0" (width - String.length s)%nat) +:+ s.


(** ** Data model *)

(** A timezone-aware [datetime]: the fields [strftime] reads, and the UTC
    offset in minutes. *)
Record datetime : Type := {
  year : Z;
  month : Z;
  day : Z;
  hour : Z;
  minute : Z;
  second : Z;
  utcoffset : Z
}.

(** One [strftime] directive, as documented for the directives the service
    uses: [%Y] four digits, [%m], [%d], [%H], [%M] two digits. *)
Definition strftime_directive (c : ascii) (dt : datetime) : string :=
  if Ascii.eqb c "Y" then pad_int 4 (year dt)
  else if Ascii.eqb c "m" then pad_int 2 (month dt)
  else if Ascii.eqb c "d" then pad_int 2 (day dt)
  else if Ascii.eqb c "H" then pad_int 2 (hour dt)
  else if Ascii.eqb c "M" then pad_int 2 (minute dt)
  else String "%" (String c EmptyString).

Fixpoint strftime (dt : datetime) (fmt : string) : string :=
  match fmt with
  | EmptyString => EmptyString
  | String c rest =>
      if Ascii.eqb c "%" then
        match rest with
        | String d rest' => strftime_directive d dt +:+ strftime dt rest'
        | EmptyString => String c EmptyString
        end
      else String c (strftime dt rest)
  end.

(** The columns of the ORM class [QueueObservation] that the service reads
    ([app/models/queue_observation.py]). *)
Record QueueObservation : Type := {
  department : string;
  observed_at : datetime;
  number_of_patients : Z;
  average_wait_minutes : Z;
  notes : option string
}.

(** A well-formed observation: what the schema validators and the
    [Integer] columns (32-bit in PostgreSQL) admit. *)
Definition int32_max : Z := 2147483647.

Definition well_formed (obs : QueueObservation) : Prop :=
  department obs <> EmptyString /\
  0 <= number_of_patients obs <= int32_max /\
  0 <= average_wait_minutes obs <= int32_max.

(** ** Insertion-ordered dictionaries with string keys

    A Python [dict] iterates in insertion order; assigning to an existing key
    keeps its position. *)
Definition pydict (V : Type) : Type := list (string * V).

Fixpoint dict_get {V : Type} (k : string) (d : pydict V) : option V :=
  match d with
  | [] => None
  | (k', v) :: rest => if String.eqb k k' then Some v else dict_get k rest
  end.

Fixpoint dict_set {V : Type} (k : string) (v : V) (d : pydict V) : pydict V :=
  match d with
  | [] => [(k, v)]
  | (k', v') :: rest =>
      if String.eqb k k' then (k', v) :: rest else (k', v') :: dict_set k v rest
  end.

Definition dict_keys {V : Type} (d : pydict V) : list string := map fst d.

(** [k in d]. *)
Definition has_key {V : Type} (k : string) (d : pydict V) : bool :=
  match dict_get k d with
  | Some _ => true
  | None => false
  end.

(** ** Aggregation (lines 178-205) *)

(** The per-department accumulator built by the [defaultdict] factory.  The
    type [L] is the representation of the ['observations'] list. *)
Module Stats.
Record t (L : Type) : Type := {
  total_patients : Z;
  total_wait : Z;
  count : Z;
  max_wait : Z;
  observations : L
}.
Arguments total_patients {L} _.
Arguments total_wait {L} _.
Arguments count {L} _.
Arguments max_wait {L} _.
Arguments observations {L} _.

Definition factory {L : Type} (empty : L) : t L :=
  {| total_patients := 0; total_wait := 0; count := 0; max_wait := 0;
     observations := empty |}.

(** The four numeric updates of one loop iteration; [obs_list] is the
    ['observations'] list after its [append]. *)
Definition update {L : Type} (s : t L) (patients wait : Z) (obs_list : L) : t L :=
  {| total_patients := total_patients s + patients;
     total_wait := total_wait s + wait;
     count := count s + 1;
     max_wait := Z.max (max_wait s) wait;
     observations := obs_list |}.
End Stats.

(** The entries of [dept_averages]. *)
Module Avg.
Record t : Type := {
  avg_patients : float;
  avg_wait : float;
  max_wait : Z;
  count : Z
}.
End Avg.

(** One iteration of [for obs in observations]: [dept_stats[dept]] creates
    the entry on first use, then the updates are applied to it. *)
Definition aggregate_step (dept_stats : pydict (Stats.t (list QueueObservation)))
    (obs : QueueObservation) : pydict (Stats.t (list QueueObservation)) :=
  let dept := department obs in
  let s := default (Stats.factory []) (dict_get dept dept_stats) in
  dict_set dept
    (Stats.update s (number_of_patients obs) (average_wait_minutes obs)
       (Stats.observations s ++ [obs]))
    dept_stats.

Definition aggregate (observations : list QueueObservation)
  : pydict (Stats.t (list QueueObservation)) :=
  fold_left aggregate_step observations [].

(** The body of the loop that fills [dept_averages]. *)
Definition averages_of {L : Type} (stats : Stats.t L) : result Avg.t :=
  let* avg_patients := truediv (Stats.total_patients stats) (Stats.count stats) in
  let* avg_wait := truediv (Stats.total_wait stats) (Stats.count stats) in
  Ok {| Avg.avg_patients := avg_patients; Avg.avg_wait := avg_wait;
        Avg.max_wait := Stats.max_wait stats; Avg.count := Stats.count stats |}.

Fixpoint calculate_averages {L : Type} (dept_stats : pydict (Stats.t L))
  : result (pydict Avg.t) :=
  match dept_stats with
  | [] => Ok []
  | (dept, stats) :: rest =>
      let* a := averages_of stats in
      let* rest' := calculate_averages rest in
      Ok ((dept, a) :: rest')
  end.

(** ** Selection (lines 207-217, 246-251) *)

(** [max(iterable, key=...)]: the running maximum is replaced only by an
    item whose key is strictly greater; an empty iterable raises ValueError. *)
Fixpoint max_loop {A : Type} (key : A -> float) (best : A) (items : list A) : A :=
  match items with
  | [] => best
  | x :: rest => max_loop key (if float_gt (key x) (key best) then x else best) rest
  end.

Definition py_max {A : Type} (key : A -> float) (items : list A) : result A :=
  match items with
  | [] => Raise ValueError
  | x :: rest => Ok (max_loop key x rest)
  end.

Definition bottleneck_threshold : Z := 60.

Definition select_bottlenecks (dept_averages : pydict Avg.t) : list string :=
  map fst
    (List.filter
       (fun e => float_gt (Avg.avg_wait (snd e)) (inject_Z bottleneck_threshold))
       dept_averages).

(** ** Insight text (lines 219-283)

    Each element of [insight_parts] is one of the fixed sections below;
    [render] gives the string the source appends for it. *)
Inductive insight_part : Type :=
  | Title
  | DataSummaryHeading
  | AnalyzedLine (total_obs dept_count : Z)
  | TimePeriodLine (oldest newest : string)
  | KeyFindingsHeading
  | LongestWaitTimes (dept : string) (avg_wait : float) (max_wait : Z)
  | HighestPatientVolume (dept : string) (avg_patients : float)
  | PotentialBottlenecks (depts : list string)
  | RecommendationHeading
  | StaffingRecommendation (dept : string)
  | MonitoringRecommendation (dept : string)
  | StatusQuoRecommendation
  | RuleBasedNote.

Definition render (p : insight_part) : string :=
  match p with
  | Title => "**Queue Insights Analysis** (Rule-Based)"
  | DataSummaryHeading => NL +:+ "**Data Summary:**"
  | AnalyzedLine total_obs dept_count =>
      "- Analyzed " +:+ str_int total_obs +:+ " observations across "
      +:+ str_int dept_count +:+ " department(s)"
  | TimePeriodLine oldest newest =>
      "- Time period: " +:+ oldest +:+ " to " +:+ newest
  | KeyFindingsHeading => NL +:+ "**Key Findings:**"
  | LongestWaitTimes dept avg_wait max_wait =>
      "1. **Longest Wait Times:** " +:+ dept +:+ " has an average wait time of "
      +:+ format_1f avg_wait +:+ " minutes (max: " +:+ str_int max_wait +:+ " minutes)"
  | HighestPatientVolume dept avg_patients =>
      "2. **Highest Patient Volume:** " +:+ dept +:+ " averages "
      +:+ format_1f avg_patients +:+ " patients per observation"
  | PotentialBottlenecks depts =>
      "3. **Potential Bottlenecks:** The following departments exceed "
      +:+ str_int bottleneck_threshold +:+ " minutes average wait: " +:+ join ", " depts
  | RecommendationHeading => NL +:+ "**Recommendation:**"
  | StaffingRecommendation dept =>
      "Consider increasing staffing or adjusting scheduling for " +:+ dept +:+ " "
      +:+ "to reduce wait times. Peak periods may benefit from additional resources."
  | MonitoringRecommendation dept =>
      "Monitor " +:+ dept +:+ " closely as wait times are elevated. "
      +:+ "Proactive scheduling adjustments may prevent future bottlenecks."
  | StatusQuoRecommendation =>
      "Current wait times are within acceptable ranges. "
      +:+ "Continue monitoring for trends and consider preventive measures during peak hours."
  | RuleBasedNote =>
      NL +:+ "*Note: This analysis uses rule-based heuristics. "
      +:+ "For AI-powered insights, configure an OpenAI API key.*"
  end.

(** The [if / elif / else] that picks the recommendation. *)
Definition recommendation (hw_dept : string) (hw_stats : Avg.t) : insight_part :=
  if float_gt (Avg.avg_wait hw_stats) (inject_Z bottleneck_threshold)
  then StaffingRecommendation hw_dept
  else if float_gt (Avg.avg_wait hw_stats) (inject_Z 30)
  then MonitoringRecommendation hw_dept
  else StatusQuoRecommendation.

(** [observations[0]] and [observations[-1]]. *)
Definition getitem_first {A : Type} (l : list A) : result A :=
  match head l with
  | None => Raise IndexError
  | Some x => Ok x
  end.

Definition getitem_last {A : Type} (l : list A) : result A :=
  match last l with
  | None => Raise IndexError
  | Some x => Ok x
  end.

(** The departments selected at lines 197-217. *)
Record selection : Type := {
  dept_averages : pydict Avg.t;
  highest_wait_dept : string * Avg.t;
  highest_volume_dept : string * Avg.t
}.

Definition select_departments {L : Type} (dept_stats : pydict (Stats.t L))
  : result selection :=
  let* dept_averages := calculate_averages dept_stats in
  let* highest_wait_dept := py_max (fun x => Avg.avg_wait (snd x)) dept_averages in
  let* highest_volume_dept := py_max (fun x => Avg.avg_patients (snd x)) dept_averages in
  Ok {| dept_averages := dept_averages;
        highest_wait_dept := highest_wait_dept;
        highest_volume_dept := highest_volume_dept |}.

(** The local variables of [_generate_rule_based_insights] at its [return]. *)
Record analysis : Type := {
  selected : selection;
  bottleneck_depts : list string;
  insight_parts : list insight_part
}.

(** Lines 219-281: [total_obs] is [len(observations)], [dept_count] is
    [len(dept_stats)], [oldest] and [newest] are [observations[-1].observed_at]
    and [observations[0].observed_at]. *)
Definition compose (sel : selection) (total_obs dept_count : Z)
    (oldest newest : datetime) : analysis :=
  let '(hw_dept, hw_stats) := highest_wait_dept sel in
  let '(hv_dept, hv_stats) := highest_volume_dept sel in
  let bottleneck_depts := select_bottlenecks (dept_averages sel) in
  let insight_parts :=
    [ Title; DataSummaryHeading; AnalyzedLine total_obs dept_count;
      TimePeriodLine (strftime oldest "%Y-%m-%d") (strftime newest "%Y-%m-%d");
      KeyFindingsHeading;
      LongestWaitTimes hw_dept (Avg.avg_wait hw_stats) (Avg.max_wait hw_stats) ]
    ++ (if negb (String.eqb hv_dept hw_dept)
        then [HighestPatientVolume hv_dept (Avg.avg_patients hv_stats)] else [])
    ++ (match bottleneck_depts with
        | [] => []
        | _ :: _ => [PotentialBottlenecks bottleneck_depts]
        end)
    ++ [ RecommendationHeading; recommendation hw_dept hw_stats; RuleBasedNote ] in
  {| selected := sel;
     bottleneck_depts := bottleneck_depts;
     insight_parts := insight_parts |}.

Definition result_map {A B : Type} (f : A -> B) (m : result A) : result B :=
  let* a := m in Ok (f a).

Definition rule_based_analysis (observations : list QueueObservation) : result analysis :=
  let dept_stats := aggregate observations in
  let* sel := select_departments dept_stats in
  let total_obs := Z.of_nat (length observations) in
  let dept_count := Z.of_nat (length dept_stats) in
  let* oldest := getitem_last observations in
  let* newest := getitem_first observations in
  Ok (compose sel total_obs dept_count (observed_at oldest) (observed_at newest)).

(** The returned text: ["\n".join(insight_parts)]. *)
Definition insight_text_of (a : analysis) : string :=
  join NL (map render (insight_parts a)).

Definition _generate_rule_based_insights (observations : list QueueObservation)
  : result string :=
  result_map insight_text_of (rule_based_analysis observations).

(** ** The AI strategy (lines 91-159, 285-314) *)

(** [str.isspace] on the code points below 256. *)
Definition isspace (c : ascii) : bool :=
  let n := N_of_ascii c in
  ((9 <=? n) && (n <=? 13) || (28 <=? n) && (n <=? 32) || (n =? 133) || (n =? 160))%N.

Fixpoint lstrip (s : string) : string :=
  match s with
  | EmptyString => EmptyString
  | String c rest => if isspace c then lstrip rest else s
  end.

Fixpoint rstrip (s : string) : string :=
  match s with
  | EmptyString => EmptyString
  | String c rest =>
      match rstrip rest with
      | EmptyString => if isspace c then EmptyString else String c EmptyString
      | rest' => String c rest'
      end
  end.

(** [s.strip()]. *)
Definition strip (s : string) : string := rstrip (lstrip s).

(** Truthiness of an optional string: [None] and the empty string are false. *)
Definition truthy (s : option string) : bool :=
  match s with
  | Some (String _ _) => true
  | _ => false
  end.

(** The settings the service reads ([app/core/config.py]). *)
Record Settings : Type := {
  OPENAI_API_KEY : option string;
  OPENAI_MODEL : string;
  OPENAI_MAX_TOKENS : Z
}.

Definition default_settings : Settings :=
  {| OPENAI_API_KEY := None; OPENAI_MODEL := "gpt-4o-mini"; OPENAI_MAX_TOKENS := 500 |}.

Record QueueInsightsService : Type := {
  api_key : option string;
  model : string;
  max_tokens : Z
}.

(** [QueueInsightsService.__init__]. *)
Definition init (settings : Settings) : QueueInsightsService :=
  {| api_key := OPENAI_API_KEY settings;
     model := OPENAI_MODEL settings;
     max_tokens := OPENAI_MAX_TOKENS settings |}.

(** The keyword arguments of [client.chat.completions.create]. *)
Record ChatRequest : Type := {
  req_model : string;
  req_messages : list (string * string);
  req_max_tokens : Z;
  req_temperature : Q
}.

(** A completion: [response.choices], each with its [message.content]. *)
Record Choice : Type := { content : option string }.
Record ChatCompletion : Type := { choices : list Choice }.

(** The [openai] package as the service sees it: absent ([import] raises
    ImportError), or a function that, for an API key and a request, returns a
    completion or raises. *)
Definition openai_package : Type :=
  option (option string -> ChatRequest -> result ChatCompletion).

(** The lines appended for one observation of [enumerate(observations, 1)]. *)
Definition summary_entry (i : Z) (obs : QueueObservation) : list string :=
  [ str_int i +:+ ". Department: " +:+ department obs +:+ " | "
    +:+ "Date: " +:+ strftime (observed_at obs) "%Y-%m-%d %H:%M" +:+ " | "
    +:+ "Patients: " +:+ str_int (number_of_patients obs) +:+ " | "
    +:+ "Avg Wait: " +:+ str_int (average_wait_minutes obs) +:+ " min" ]
  ++ (if truthy (notes obs)
      then [ "   Notes: " +:+ default EmptyString (notes obs) ] else []).

Fixpoint summary_entries (i : Z) (observations : list QueueObservation) : list string :=
  match observations with
  | [] => []
  | obs :: rest => summary_entry i obs ++ summary_entries (i + 1) rest
  end.

Definition separator : string := String.concat EmptyString (repeat "-" 80).

Definition _prepare_observation_summary (observations : list QueueObservation) : string :=
  join NL
    ([ "Queue Observations:"; separator ]
     ++ summary_entries 1 observations
     ++ [ separator;
          "Total observations: " +:+ str_int (Z.of_nat (length observations)) ]).

Definition system_message : string :=
  "You are a helpful assistant that analyzes hospital queue data to provide operational insights.".

Definition prompt_of (obs_summary : string) : string :=
  "You are an AI assistant helping hospital administrators analyze queue data." +:+ NL
  +:+ NL
  +:+ "Based on the following queue observations, provide a concise operational insight:" +:+ NL
  +:+ NL
  +:+ obs_summary +:+ NL
  +:+ NL
  +:+ "Your analysis should:" +:+ NL
  +:+ "1. Identify the department(s) with the highest wait times or patient volumes" +:+ NL
  +:+ "2. Highlight any concerning patterns or bottlenecks" +:+ NL
  +:+ "3. Provide ONE actionable recommendation (e.g., staffing adjustment, scheduling change)" +:+ NL
  +:+ NL
  +:+ "Keep your response professional, clear, and under 300 words." +:+ NL
  +:+ "Focus on decision support, not prediction." +:+ NL.

Definition chat_request (self : QueueInsightsService) (prompt : string) : ChatRequest :=
  {| req_model := model self;
     req_messages := [ ("system", system_message); ("user", prompt) ];
     req_max_tokens := max_tokens self;
     req_temperature := 7 # 10 |}.

(** [response.choices[0].message.content.strip()]. *)
Definition first_content (response : ChatCompletion) : result string :=
  match choices response with
  | [] => Raise IndexError
  | c :: _ =>
      match content c with
      | None => Raise AttributeError
      | Some text => Ok (strip text)
      end
  end.

Definition _generate_ai_insights (self : QueueInsightsService) (openai : openai_package)
    (observations : list QueueObservation) : result string :=
  match openai with
  | None => Raise (OtherException "OpenAI package not installed. Install with: pip install openai")
  | Some create =>
      let obs_summary := _prepare_observation_summary observations in
      let prompt := prompt_of obs_summary in
      let* response := create (api_key self) (chat_request self prompt) in
      first_content response
  end.

(** ** The entry point (lines 51-89) *)

Definition no_data_message : string :=
  "No observations available for analysis. Please add queue observations first.".

Definition rule_based_marker : string := "rule-based".

Definition InsightResult : Type := string * bool * string.

(** The fallback: lines 86-89. *)
Definition rule_based_result (observations : list QueueObservation) : result InsightResult :=
  let* insight_text := _generate_rule_based_insights observations in
  Ok (insight_text, false, rule_based_marker).

Definition generate_insights (self : QueueInsightsService) (openai : openai_package)
    (observations : list QueueObservation) : result InsightResult :=
  match observations with
  | [] => Ok (no_data_message, false, rule_based_marker)
  | _ :: _ =>
      if truthy (api_key self) then
        match _generate_ai_insights self openai observations with
        | Ok insight_text => Ok (insight_text, true, model self)
        | Raise _ => rule_based_result observations
        end
      else rule_based_result observations
  end.


(** ** Reference semantics

    The caller passes [observations] by reference: a list object whose
    elements are ORM objects.  Here the methods run over a store of such
    objects, so that what they read and what they write is explicit.  The
    ['observations'] list of each [dept_stats] entry is a list object created by
    the factory; [lines] and [insight_parts] hold only strings and stay local
    values. *)
Module Ref.

Definition loc : Type := positive.

Inductive pyobj : Type :=
  | ObsObject (o : QueueObservation)
  | ListObject (items : list loc).

Inductive log_record : Type :=
  | LogInfo (msg : string)
  | LogWarning (msg : string) (e : exn).

(** The store, the requests sent to the completion API so far, and the
    records written to the logger so far. *)
Record world : Type := {
  heap : gmap loc pyobj;
  api_calls : list ChatRequest;
  log : list log_record
}.

Definition set_heap (h : gmap loc pyobj) (w : world) : world :=
  {| heap := h; api_calls := api_calls w; log := log w |}.

(** A method body: it returns or raises, and leaves a world behind. *)
Definition M (A : Type) : Type := world -> result A * world.

Definition ret {A : Type} (a : A) : M A := fun w => (Ok a, w).

Definition raise {A : Type} (e : exn) : M A := fun w => (Raise e, w).

Definition bind {A B : Type} (m : M A) (k : A -> M B) : M B :=
  fun w =>
    match m w with
    | (Ok a, w') => k a w'
    | (Raise e, w') => (Raise e, w')
    end.

Definition lift {A : Type} (r : result A) : M A := fun w => (r, w).

(** [try: body except Exception as e: handler]. *)
Definition try_except {A : Type} (body : M A) (handler : exn -> M A) : M A :=
  fun w =>
    match body w with
    | (Ok a, w') => (Ok a, w')
    | (Raise e, w') => handler e w'
    end.

Notation "'let!' x := m 'in' k" := (bind m (fun x => k))
  (at level 10, x pattern, m at level 100, k at level 200).

(** Reading a list object (its length, its items in order). *)
Definition read_list (l : loc) : M (list loc) :=
  fun w =>
    match heap w !! l with
    | Some (ListObject items) => (Ok items, w)
    | _ => (Raise TypeError, w)
    end.

(** Reading the attributes of an observation. *)
Definition read_obs (r : loc) : M QueueObservation :=
  fun w =>
    match heap w !! r with
    | Some (ObsObject o) => (Ok o, w)
    | _ => (Raise AttributeError, w)
    end.

(** A new empty list object. *)
Definition new_list : M loc :=
  fun w =>
    let l := fresh (dom (heap w)) in
    (Ok l, set_heap (<[l := ListObject []]> (heap w)) w).

(** [l.append(r)]. *)
Definition list_append (l r : loc) : M unit :=
  fun w =>
    match heap w !! l with
    | Some (ListObject items) =>
        (Ok tt, set_heap (<[l := ListObject (items ++ [r])]> (heap w)) w)
    | _ => (Raise AttributeError, w)
    end.

(** [client.chat.completions.create(...)]: the request goes out. *)
Definition call_api (create : option string -> ChatRequest -> result ChatCompletion)
    (key : option string) (req : ChatRequest) : M ChatCompletion :=
  fun w =>
    (create key req,
     {| heap := heap w; api_calls := api_calls w ++ [req]; log := log w |}).

Definition logger (r : log_record) : M unit :=
  fun w => (Ok tt, {| heap := heap w; api_calls := api_calls w; log := log w ++ [r] |}).

(** The loop of lines 186-195 over the items of [observations]. *)
Fixpoint aggregate_loop (items : list loc) (dept_stats : pydict (Stats.t loc))
  : M (pydict (Stats.t loc)) :=
  match items with
  | [] => ret dept_stats
  | r :: rest =>
      let! obs := read_obs r in
      let dept := department obs in
      let! s := match dict_get dept dept_stats with
           | Some s => ret s
           | None => let! l := new_list in ret (Stats.factory l)
           end in
      let! _ := list_append (Stats.observations s) r in
      aggregate_loop rest
        (dict_set dept
           (Stats.update s (number_of_patients obs) (average_wait_minutes obs)
              (Stats.observations s))
           dept_stats)
  end.

(** [observations[0]] and [observations[-1]], then an attribute read. *)
Definition getitem_first (l : loc) : M QueueObservation :=
  let! items := read_list l in let! r := lift (getitem_first items) in read_obs r.

Definition getitem_last (l : loc) : M QueueObservation :=
  let! items := read_list l in let! r := lift (getitem_last items) in read_obs r.

Definition rule_based_analysis (observations : loc) : M analysis :=
  let! items := read_list observations in
  let! dept_stats := aggregate_loop items [] in
  let! sel := lift (select_departments dept_stats) in
  let! items' := read_list observations in
  let total_obs := Z.of_nat (length items') in
  let dept_count := Z.of_nat (length dept_stats) in
  let! oldest := getitem_last observations in
  let! newest := getitem_first observations in
  ret (compose sel total_obs dept_count (observed_at oldest) (observed_at newest)).

Definition _generate_rule_based_insights (observations : loc) : M string :=
  let! a := rule_based_analysis observations in ret (insight_text_of a).

(** The loop of lines 301-309. *)
Fixpoint summary_loop (i : Z) (items : list loc) : M (list string) :=
  match items with
  | [] => ret []
  | r :: rest =>
      let! obs := read_obs r in
      let! lines := summary_loop (i + 1) rest in
      ret (summary_entry i obs ++ lines)
  end.

Definition _prepare_observation_summary (observations : loc) : M string :=
  let! items := read_list observations in
  let! entries := summary_loop 1 items in
  let! items' := read_list observations in
  ret (join NL
         ([ "Queue Observations:"; separator ] ++ entries
          ++ [ separator;
               "Total observations: " +:+ str_int (Z.of_nat (length items')) ])).

Definition _generate_ai_insights (self : QueueInsightsService) (openai : openai_package)
    (observations : loc) : M string :=
  match openai with
  | None => raise (OtherException "OpenAI package not installed. Install with: pip install openai")
  | Some create =>
      let! obs_summary := _prepare_observation_summary observations in
      let! response := call_api create (api_key self) (chat_request self (prompt_of obs_summary)) in
      lift (first_content response)
  end.

Definition rule_based_result (observations : loc) : M InsightResult :=
  let! _ := logger (LogInfo "Using rule-based insight generation") in
  let! insight_text := _generate_rule_based_insights observations in
  ret (insight_text, false, rule_based_marker).

Definition generate_insights (self : QueueInsightsService) (openai : openai_package)
    (observations : loc) : M InsightResult :=
  let! items := read_list observations in
  match items with
  | [] => ret (no_data_message, false, rule_based_marker)
  | _ :: _ =>
      if truthy (api_key self) then
        try_except
          (let! insight_text := _generate_ai_insights self openai observations in
           let! _ := logger (LogInfo ("Generated AI insights using " +:+ model self)) in
           ret (insight_text, true, model self))
          (fun e =>
             let! _ := logger (LogWarning "AI generation failed, falling back to rules: " e) in
             rule_based_result observations)
      else rule_based_result observations
  end.

(** The value of the list object at [l]: its observations, in order. *)
Definition snapshot (h : gmap loc pyobj) (l : loc) : option (list QueueObservation) :=
  match h !! l with
  | Some (ListObject items) =>
      mapM (fun r => match h !! r with Some (ObsObject o) => Some o | _ => None end) items
  | _ => None
  end.

End Ref.

(** ** Vocabulary of the statements *)

(** The departments of a list in order of first appearance. *)
Fixpoint first_appearance (depts : list string) : list string :=
  match depts with
  | [] => []
  | d :: rest => d :: List.filter (fun d' => negb (String.eqb d' d)) (first_appearance rest)
  end.

(** The index of the first observation of department [d]. *)
Fixpoint first_occurrence (d : string) (observations : list QueueObservation) : option nat :=
  match observations with
  | [] => None
  | o :: rest =>
      if String.eqb (department o) d then Some 0%nat
      else option_map S (first_occurrence d rest)
  end.

(** The three recommendation tiers. *)
Definition is_recommendation (p : insight_part) : bool :=
  match p with
  | StaffingRecommendation _ | MonitoringRecommendation _ | StatusQuoRecommendation => true
  | _ => false
  end.

(** The numeric fields of an accumulator. *)
Definition totals {L : Type} (s : Stats.t L) : Z * Z * Z * Z :=
  (Stats.total_patients s, Stats.total_wait s, Stats.count s, Stats.max_wait s).

(** What the aggregation has accumulated from well-formed observations. *)
Definition in_range {L : Type} (s : Stats.t L) : Prop :=
  1 <= Stats.count s /\
  0 <= Stats.total_patients s <= Stats.count s * int32_max /\
  0 <= Stats.total_wait s <= Stats.count s * int32_max.

(** The entry of [dept_averages] for department [d], as the rule-based
    strategy computes it from [observations]. *)
Definition department_statistics (observations : list QueueObservation) (d : string)
  : result (option Avg.t) :=
  result_map (dict_get d) (calculate_averages (aggregate observations)).

(** Two accumulator mappings with the same numeric fields per department. *)
Definition same_totals {L L' : Type} (acc : pydict (Stats.t L)) (acc' : pydict (Stats.t L'))
  : Prop :=
  forall d, option_map totals (dict_get d acc) = option_map totals (dict_get d acc').

(** [m] leaves every object of the store [h0] as it is: whatever the world
    it starts from that contains [h0], the world it ends in contains [h0], and a
    value it returns satisfies [P]. *)
Definition frames {A : Type} (h0 : gmap Ref.loc Ref.pyobj) (P : A -> Prop) (m : Ref.M A)
  : Prop :=
  forall w, h0 ⊆ Ref.heap w ->
    h0 ⊆ Ref.heap (snd (m w)) /\ forall a, fst (m w) = Ok a -> P a.

(** The ['observations'] lists of [dept_stats] are objects outside [h0]. *)
Definition lists_outside (h0 : gmap Ref.loc Ref.pyobj) (dept_stats : pydict (Stats.t Ref.loc))
  : Prop :=
  List.Forall (fun e => h0 !! Stats.observations (snd e) = None) dept_stats.

(** The ['observations'] lists of [dept_stats] are list objects of [h]. *)
Definition lists_alive (h : gmap Ref.loc Ref.pyobj) (dept_stats : pydict (Stats.t Ref.loc))
  : Prop :=
  List.Forall
    (fun e => exists items, h !! Stats.observations (snd e) = Some (Ref.ListObject items))
    dept_stats.

(** Two accumulator mappings with the same keys, in the same order, and the
    same numeric fields. *)
Definition same_entries {L L' : Type} (acc : pydict (Stats.t L)) (acc' : pydict (Stats.t L'))
  : Prop :=
  List.Forall2 (fun e e' => fst e = fst e' /\ totals (snd e) = totals (snd e')) acc acc'.

(** From any world that contains [h0], [m] ends with the result [r], in a
    world that contains [h0]. *)
Definition returns {A : Type} (h0 : gmap Ref.loc Ref.pyobj) (m : Ref.M A) (r : result A)
  : Prop :=
  forall w, h0 ⊆ Ref.heap w -> fst (m w) = r /\ h0 ⊆ Ref.heap (snd (m w)).

(** The observations of the store [h] that the references [items] denote. *)
Definition denotes (h : gmap Ref.loc Ref.pyobj) (items : list Ref.loc)
    (observations : list QueueObservation) : Prop :=
  List.Forall2 (fun r o => h !! r = Some (Ref.ObsObject o)) items observations.

(** Sample inputs. *)
Definition sample_time (d : Z) : datetime :=
  {| year := 2025; month := 12; day := d; hour := 14; minute := 30; second := 0;
     utcoffset := 0 |}.

Definition observation (dept : string) (d patients wait : Z) : QueueObservation :=
  {| department := dept; observed_at := sample_time d; number_of_patients := patients;
     average_wait_minutes := wait; notes := None |}.

Definition unconfigured : QueueInsightsService := init default_settings.

Definition configured : QueueInsightsService :=
  init {| OPENAI_API_KEY := Some "sk-test"; OPENAI_MODEL := "gpt-4o-mini";
          OPENAI_MAX_TOKENS := 500 |}.

(** A completion API that answers with blank content. *)
Definition blank_completion : openai_package :=
  Some (fun _ _ => Ok {| choices := [ {| content := Some "  " |} ] |}).

(** A store holding the list [1] of the observations [2] and [3]. *)
Definition sample_world : Ref.world :=
  {| Ref.heap :=
       <[1%positive := Ref.ListObject [2%positive; 3%positive]]>
         (<[2%positive := Ref.ObsObject (observation "ER" 17 5 30)]>
            (<[3%positive := Ref.ObsObject (observation "Lab" 16 2 61)]> ∅));
     Ref.api_calls := [];
     Ref.log := [] |}.

Definition empty_world : Ref.world :=
  {| Ref.heap := <[1%positive := Ref.ListObject []]> ∅;
     Ref.api_calls := [];
     Ref.log := [] |}.

(** ** Schema validators ([app/schemas/queue_observation.py], lines 64-97) *)






(** ** Vocabulary of the further properties *)

(** The observations of department [d], in input order. *)
Definition rows (d : string) (observations : list QueueObservation) : list QueueObservation :=
  List.filter (fun o => String.eqb (department o) d) observations.

Definition sum_Z (l : list Z) : Z := fold_right Z.add 0 l.

(** The greatest of 0 and the elements of [l]. *)
Definition max_of (l : list Z) : Z := fold_right Z.max 0 l.

(** What one department's accumulator holds after the loop. *)
Definition stats_of_rows (r : list QueueObservation) : Stats.t (list QueueObservation) :=
  {| Stats.total_patients := sum_Z (map number_of_patients r);
     Stats.total_wait := sum_Z (map average_wait_minutes r);
     Stats.count := Z.of_nat (length r);
     Stats.max_wait := max_of (map average_wait_minutes r);
     Stats.observations := r |}.



(** [m] sends no request and logs nothing. *)
Definition quiet {A : Type} (m : Ref.M A) : Prop :=
  forall w,
    Ref.api_calls (snd (m w)) = Ref.api_calls w /\ Ref.log (snd (m w)) = Ref.log w.

(** From any world that contains [h0], [m] ends with the result [r] in a
    world that contains [h0], having sent the requests [calls] and written the
    log records [records], in this order, and nothing else. *)
Definition performs {A : Type} (h0 : gmap Ref.loc Ref.pyobj) (m : Ref.M A) (r : result A)
    (calls : list ChatRequest) (records : list Ref.log_record) : Prop :=
  forall w, h0 ⊆ Ref.heap w ->
    fst (m w) = r /\ h0 ⊆ Ref.heap (snd (m w)) /\
    Ref.api_calls (snd (m w)) = Ref.api_calls w ++ calls /\
    Ref.log (snd (m w)) = Ref.log w ++ records.

(** The requests one call of the entry point sends. *)
Definition requests_of (self : QueueInsightsService) (openai : openai_package)
    (observations : list QueueObservation) : list ChatRequest :=
  match observations, openai with
  | _ :: _, Some _ =>
      if truthy (api_key self)
      then [chat_request self (prompt_of (_prepare_observation_summary observations))]
      else []
  | _, _ => []
  end.

(** The records one call of the entry point writes to the logger. *)
Definition records_of (self : QueueInsightsService) (openai : openai_package)
    (observations : list QueueObservation) : list Ref.log_record :=
  match observations with
  | [] => []
  | _ :: _ =>
      if truthy (api_key self) then
        match _generate_ai_insights self openai observations with
        | Ok _ => [Ref.LogInfo ("Generated AI insights using " +:+ model self)]
        | Raise e =>
            [Ref.LogWarning "AI generation failed, falling back to rules: " e;
             Ref.LogInfo "Using rule-based insight generation"]
        end
      else [Ref.LogInfo "Using rule-based insight generation"]
  end.

(** * Properties *)

(** ** Dictionaries *)

Lemma dict_get_set {V : Type} (k k' : string) (v : V) (d : pydict V) :
  dict_get k (dict_set k' v d) = if String.eqb k k' then Some v else dict_get k d.
Proof.
  induction d as [|[k0 v0] d IH]; simpl.
  - reflexivity.
  - destruct (String.eqb_spec k' k0) as [->|Hne]; simpl.
    + destruct (String.eqb k k0); reflexivity.
    + rewrite IH. destruct (String.eqb_spec k k0) as [->|Hne'].
      * destruct (String.eqb_spec k0 k') as [E|_]; [congruence | reflexivity].
      * reflexivity.
Qed.

Lemma dict_keys_set {V : Type} (k : string) (v : V) (d : pydict V) :
  dict_keys (dict_set k v d)
  = match dict_get k d with
    | Some _ => dict_keys d
    | None => dict_keys d ++ [k]
    end.
Proof.
  induction d as [|[k0 v0] d IH]; simpl.
  - reflexivity.
  - destruct (String.eqb k k0); simpl.
    + reflexivity.
    + rewrite IH. destruct (dict_get k d); reflexivity.
Qed.

Lemma dict_get_Some_In {V : Type} (k : string) (v : V) (d : pydict V) :
  dict_get k d = Some v -> In (k, v) d.
Proof.
  induction d as [|[k0 v0] d IH]; simpl; [discriminate|].
  destruct (String.eqb_spec k k0) as [->|Hne].
  - intros [= ->]. now left.
  - intros H. right. now apply IH.
Qed.

Lemma dict_get_None_keys {V : Type} (k : string) (d : pydict V) :
  dict_get k d = None <-> ~ In k (dict_keys d).
Proof.
  induction d as [|[k0 v0] d IH]; simpl.
  - tauto.
  - destruct (String.eqb_spec k k0) as [->|Hne].
    + split; [discriminate | intros H; exfalso; apply H; now left].
    + rewrite IH. split; [intros H [E|H']; [congruence | tauto] | tauto].
Qed.

Lemma In_dict_get {V : Type} (k : string) (v : V) (d : pydict V) :
  List.NoDup (dict_keys d) -> In (k, v) d -> dict_get k d = Some v.
Proof.
  induction d as [|[k0 v0] d IH]; simpl; [tauto|].
  intros Hnd [E|Hin].
  - injection E as -> ->. now rewrite String.eqb_refl.
  - apply List.NoDup_cons_iff in Hnd as [Hnot Hnd].
    destruct (String.eqb_spec k k0) as [->|Hne].
    + exfalso. apply Hnot. apply (in_map fst) in Hin. exact Hin.
    + now apply IH.
Qed.

(** ** Float comparisons *)

Lemma float_gt_lt (x y : float) : float_gt x y = true <-> (y < x)%Q.
Proof.
  unfold float_gt. rewrite negb_true_iff, <- not_true_iff_false, Qle_bool_iff.
  split; [apply Qnot_le_lt | apply Qlt_not_le].
Qed.

Lemma float_gt_le (x y : float) : float_gt x y = false <-> (x <= y)%Q.
Proof.
  unfold float_gt. rewrite negb_false_iff. apply Qle_bool_iff.
Qed.

(** ** The running maximum *)

(** [max_loop] returns the first item whose key is maximal: the items before
    it have a strictly smaller key, the items after it a key that is no
    greater. *)
Lemma max_loop_first_maximal {A : Type} (key : A -> float) (items : list A) (best : A) :
  exists pre post,
    best :: items = pre ++ max_loop key best items :: post /\
    (forall x, In x pre -> (key x < key (max_loop key best items))%Q) /\
    (forall x, In x post -> (key x <= key (max_loop key best items))%Q).
Proof.
  revert best. induction items as [|x rest IH]; intros best; simpl.
  - exists [], []. repeat split; simpl; tauto.
  - destruct (float_gt (key x) (key best)) eqn:Hgt.
    + apply float_gt_lt in Hgt.
      destruct (IH x) as (pre & post & Heq & Hpre & Hpost).
      exists (best :: pre), post. split; [simpl; now rewrite Heq|]. split; [|exact Hpost].
      intros y [<-|Hy]; [|now apply Hpre].
      eapply Qlt_le_trans; [exact Hgt|].
      destruct pre as [|p pre]; simpl in Heq.
      * injection Heq as Hx _. rewrite <- Hx. apply Qle_refl.
      * injection Heq as Hx _. apply Qlt_le_weak, Hpre. left. now symmetry.
    + apply float_gt_le in Hgt.
      destruct (IH best) as (pre & post & Heq & Hpre & Hpost).
      destruct pre as [|p pre]; simpl in Heq.
      * injection Heq as Hb Hrest.
        exists [], (x :: post). split; [simpl; congruence|]. split; [simpl; tauto|].
        intros y [<-|Hy]; [|now apply Hpost].
        rewrite <- Hb. exact Hgt.
      * injection Heq as Hb Hrest. subst p.
        exists (best :: x :: pre), post. split; [simpl; congruence|]. split; [|exact Hpost].
        intros y [<-|[<-|Hy]].
        -- apply Hpre. now left.
        -- eapply Qle_lt_trans; [exact Hgt|]. apply Hpre. now left.
        -- apply Hpre. now right.
Qed.

Lemma py_max_first_maximal {A : Type} (key : A -> float) (items : list A) (r : A) :
  py_max key items = Ok r ->
  exists pre post,
    items = pre ++ r :: post /\
    (forall x, In x pre -> (key x < key r)%Q) /\
    (forall x, In x post -> (key x <= key r)%Q).
Proof.
  destruct items as [|x rest]; simpl; [discriminate|].
  intros [= <-]. apply max_loop_first_maximal.
Qed.

Lemma py_max_nonempty {A : Type} (key : A -> float) (items : list A) :
  items <> [] -> exists r, py_max key items = Ok r.
Proof.
  destruct items as [|x rest]; [congruence|]. intros _. simpl. eauto.
Qed.

(** ** Order of the statistics mapping *)

Lemma filter_filter_andb {A : Type} (f g : A -> bool) (l : list A) :
  List.filter f (List.filter g l) = List.filter (fun x => g x && f x) l.
Proof.
  induction l as [|x l IH]; simpl; [reflexivity|].
  destruct (g x); simpl; [destruct (f x)|]; now rewrite IH.
Qed.

Lemma filter_split {A : Type} (f : A -> bool) (l a b : list A) (d : A) :
  List.filter f l = a ++ d :: b ->
  exists a' b', l = a' ++ d :: b' /\ List.filter f a' = a /\ List.filter f b' = b /\ f d = true.
Proof.
  revert a. induction l as [|x l IH]; intros a; simpl.
  - destruct a; discriminate.
  - destruct (f x) eqn:Hx.
    + destruct a as [|y a]; simpl; intros [= -> Hl].
      * exists [], l. simpl. auto.
      * destruct (IH a Hl) as (a' & b' & -> & Ha & Hb & Hd).
        exists (y :: a'), b'. simpl. rewrite Hx, Ha. auto.
    + intros Hl. destruct (IH a Hl) as (a' & b' & -> & Ha & Hb & Hd).
      exists (x :: a'), b'. simpl. rewrite Hx. auto.
Qed.

Lemma first_appearance_In (d : string) (depts : list string) :
  In d (first_appearance depts) <-> In d depts.
Proof.
  induction depts as [|x depts IH]; simpl; [tauto|].
  rewrite filter_In, IH, negb_true_iff.
  destruct (String.eqb_spec d x) as [->|Hne]; [tauto|].
  split; [tauto|]. intros [E|H]; [congruence | auto].
Qed.

Lemma first_appearance_NoDup (depts : list string) : List.NoDup (first_appearance depts).
Proof.
  induction depts as [|x depts IH]; simpl; constructor.
  - rewrite filter_In, String.eqb_refl. simpl. intros [_ H]. discriminate.
  - now apply List.NoDup_filter.
Qed.

Lemma aggregate_step_keys (acc : pydict (Stats.t (list QueueObservation)))
    (observations : list QueueObservation) :
  dict_keys (fold_left aggregate_step observations acc)
  = dict_keys acc
    ++ List.filter (fun d => negb (has_key d acc))
         (first_appearance (map department observations)).
Proof.
  revert acc. induction observations as [|o rest IH]; intros acc; simpl.
  - now rewrite app_nil_r.
  - rewrite IH. unfold aggregate_step.
    set (d := department o). rewrite dict_keys_set.
    set (v := Stats.update _ _ _ _).
    assert (Hext : forall x, negb (has_key x (dict_set d v acc))
                             = negb (String.eqb x d) && negb (has_key x acc)).
    { intros x. unfold has_key. rewrite dict_get_set.
      destruct (String.eqb x d); reflexivity. }
    rewrite (List.filter_ext _ _ Hext), <- filter_filter_andb.
    unfold has_key at 2. destruct (dict_get d acc) eqn:Hd; simpl.
    + reflexivity.
    + now rewrite <- app_assoc.
Qed.

Lemma aggregate_keys (observations : list QueueObservation) :
  dict_keys (aggregate observations) = first_appearance (map department observations).
Proof.
  unfold aggregate. rewrite aggregate_step_keys. simpl.
  induction (first_appearance _) as [|x l IH]; simpl; [reflexivity | now rewrite IH].
Qed.

Lemma first_occurrence_In (d : string) (observations : list QueueObservation) :
  In d (map department observations) -> exists i, first_occurrence d observations = Some i.
Proof.
  induction observations as [|o rest IH]; simpl; [tauto|].
  destruct (String.eqb_spec (department o) d) as [_|Hne]; [eauto|].
  intros [E|H]; [congruence|]. destruct (IH H) as [i ->]. simpl. eauto.
Qed.

(** A department that precedes another in first-appearance order occurs
    first at a smaller index. *)
Lemma first_appearance_order (observations : list QueueObservation)
    (k1 k2 : list string) (d d' : string) :
  first_appearance (map department observations) = k1 ++ d :: k2 ->
  In d' k2 ->
  exists i j,
    first_occurrence d observations = Some i /\
    first_occurrence d' observations = Some j /\ (i < j)%nat.
Proof.
  revert k1 k2. induction observations as [|o rest IH]; intros k1 k2; simpl.
  - destruct k1; discriminate.
  - destruct k1 as [|x k1]; simpl; intros [= Hx Hk] Hin.
    + subst k2. rewrite Hx, String.eqb_refl.
      apply filter_In in Hin as [Hin Hne]. rewrite negb_true_iff, String.eqb_sym in Hne.
      rewrite <- Hx, Hne.
      apply first_appearance_In, first_occurrence_In in Hin as [j ->].
      exists 0%nat, (S j). simpl. repeat split; lia.
    + subst x. apply filter_split in Hk as (a & b & Hfa & _ & Hb & Hd).
      rewrite <- Hb in Hin. apply filter_In in Hin as [Hin Hd'].
      rewrite negb_true_iff, String.eqb_sym in Hd, Hd'. rewrite Hd, Hd'.
      destruct (IH a b Hfa Hin) as (i & j & -> & -> & Hlt).
      exists (S i), (S j). simpl. repeat split; lia.
Qed.

(** ** The averages *)

Lemma calculate_averages_Forall2 {L : Type} (dept_stats : pydict (Stats.t L))
    (dept_averages : pydict Avg.t) :
  calculate_averages dept_stats = Ok dept_averages <->
  List.Forall2 (fun e e' => fst e = fst e' /\ averages_of (snd e) = Ok (snd e'))
    dept_stats dept_averages.
Proof.
  revert dept_averages. induction dept_stats as [|[d s] rest IH]; intros da; simpl.
  - split; [intros [= <-]; constructor | intros H; inversion H; reflexivity].
  - destruct (averages_of s) as [a|e] eqn:Ha; simpl.
    + destruct (calculate_averages rest) as [rest'|e] eqn:Hr; simpl.
      * split.
        -- intros [= <-]. constructor; [simpl; auto | now apply IH].
        -- intros H. inversion H as [|? [d' a'] ? ? [Hd Ha'] Hrest]; subst.
           simpl in *. subst d'. apply IH in Hrest.
           rewrite Ha in Ha'. injection Ha' as ->. injection Hrest as ->. reflexivity.
      * split; [discriminate|].
        intros H. inversion H as [|? [d' a'] ? ? [Hd Ha'] Hrest]; subst.
        apply IH in Hrest. discriminate.
    + split; [discriminate|].
      intros H. inversion H as [|? [d' a'] ? ? [Hd Ha'] Hrest]; subst.
      simpl in *. congruence.
Qed.

Lemma calculate_averages_keys {L : Type} (dept_stats : pydict (Stats.t L))
    (dept_averages : pydict Avg.t) :
  calculate_averages dept_stats = Ok dept_averages ->
  dict_keys dept_averages = dict_keys dept_stats.
Proof.
  rewrite calculate_averages_Forall2. induction 1 as [|[d s] [d' a] ? ? [Hd _] _ IH]; simpl.
  - reflexivity.
  - simpl in Hd. unfold dict_keys in *. simpl. now rewrite Hd, IH.
Qed.

Lemma calculate_averages_get {L : Type} (dept_stats : pydict (Stats.t L))
    (dept_averages : pydict Avg.t) (d : string) :
  calculate_averages dept_stats = Ok dept_averages ->
  match dict_get d dept_stats with
  | Some s => exists a, averages_of s = Ok a /\ dict_get d dept_averages = Some a
  | None => dict_get d dept_averages = None
  end.
Proof.
  rewrite calculate_averages_Forall2. induction 1 as [|[k s] [k' a] ? ? [Hk Ha] _ IH]; simpl.
  - reflexivity.
  - simpl in Hk, Ha. subst k'. destruct (String.eqb d k); [eauto | exact IH].
Qed.

Lemma calculate_averages_raise {L : Type} (dept_stats : pydict (Stats.t L)) (e : exn) :
  calculate_averages dept_stats = Raise e ->
  exists d s, In (d, s) dept_stats /\ averages_of s = Raise e.
Proof.
  induction dept_stats as [|[d s] rest IH]; simpl; [discriminate|].
  destruct (averages_of s) as [a|e'] eqn:Ha; simpl.
  - destruct (calculate_averages rest) as [rest'|e'] eqn:Hr; simpl; [discriminate|].
    intros [= ->]. destruct (IH eq_refl) as (d' & s' & Hin & Hs'). eauto 6.
  - intros [= ->]. eauto 6.
Qed.

(** ** Shape of the composed text *)

Lemma rule_based_analysis_compose (observations : list QueueObservation) (a : analysis) :
  rule_based_analysis observations = Ok a ->
  exists sel oldest newest,
    select_departments (aggregate observations) = Ok sel /\
    a = compose sel (Z.of_nat (length observations))
          (Z.of_nat (length (aggregate observations))) oldest newest.
Proof.
  unfold rule_based_analysis.
  destruct (select_departments _) as [sel|e]; simpl; [|discriminate].
  destruct (getitem_last observations) as [o1|e]; simpl; [|discriminate].
  destruct (getitem_first observations) as [o2|e]; simpl; [|discriminate].
  intros [= <-]. eauto.
Qed.

Lemma compose_recommendation (sel : selection) (n m : Z) (t1 t2 : datetime)
    (p : insight_part) :
  is_recommendation p = true ->
  In p (insight_parts (compose sel n m t1 t2))
  <-> p = recommendation (fst (highest_wait_dept sel)) (snd (highest_wait_dept sel)).
Proof.
  intros Hp. unfold compose.
  destruct (highest_wait_dept sel) as [hw_dept hw_stats].
  destruct (highest_volume_dept sel) as [hv_dept hv_stats]. simpl.
  destruct (negb _); destruct (select_bottlenecks _); simpl;
    (split; [intros H; repeat (destruct H as [H|H]; [try (subst p; discriminate)|]);
             try tauto; symmetry; exact H
            | intros ->; tauto]).
Qed.

Lemma compose_bottlenecks (sel : selection) (n m : Z) (t1 t2 : datetime)
    (ds : list string) :
  In (PotentialBottlenecks ds) (insight_parts (compose sel n m t1 t2))
  <-> ds = select_bottlenecks (dept_averages sel) /\ ds <> [].
Proof.
  unfold compose.
  destruct (highest_wait_dept sel) as [hw_dept hw_stats] eqn:Hhw.
  destruct (highest_volume_dept sel) as [hv_dept hv_stats]. simpl.
  assert (Hrec : forall d s, PotentialBottlenecks ds <> recommendation d s).
  { intros d s. unfold recommendation. now repeat destruct (float_gt _ _). }
  destruct (negb _); destruct (select_bottlenecks _) as [|b bs]; simpl;
    (split; [intros H; repeat (destruct H as [H|H]; [try discriminate|]);
             try tauto; try (symmetry in H; now apply Hrec in H);
             try (injection H as <-; split; [reflexivity | discriminate])
            | intros [-> Hne]; try congruence; tauto]).
Qed.

(** ** Selection of departments *)

Lemma select_departments_inv {L : Type} (dept_stats : pydict (Stats.t L)) (sel : selection) :
  select_departments dept_stats = Ok sel ->
  calculate_averages dept_stats = Ok (dept_averages sel) /\
  py_max (fun x => Avg.avg_wait (snd x)) (dept_averages sel) = Ok (highest_wait_dept sel) /\
  py_max (fun x => Avg.avg_patients (snd x)) (dept_averages sel)
  = Ok (highest_volume_dept sel).
Proof.
  unfold select_departments.
  destruct (calculate_averages dept_stats) as [da|e]; simpl; [|discriminate].
  destruct (py_max (fun x => Avg.avg_wait (snd x)) da) as [hw|e] eqn:Hhw;
    simpl; [|discriminate].
  destruct (py_max (fun x => Avg.avg_patients (snd x)) da) as [hv|e] eqn:Hhv;
    simpl; [|discriminate].
  intros [= <-]. simpl. auto.
Qed.

Lemma dept_averages_keys (observations : list QueueObservation) (da : pydict Avg.t) :
  calculate_averages (aggregate observations) = Ok da ->
  dict_keys da = first_appearance (map department observations).
Proof.
  intros H. apply calculate_averages_keys in H. now rewrite H, aggregate_keys.
Qed.

(** The item [max] returns over the statistics mapping, for any key: it is an
    entry of the mapping, no entry has a greater key, and any other entry with
    an equal key first occurs later in the input. *)
Lemma argmax_first_occurrence (key : Avg.t -> float)
    (observations : list QueueObservation) (da : pydict Avg.t) (r : string * Avg.t) :
  calculate_averages (aggregate observations) = Ok da ->
  py_max (fun x => key (snd x)) da = Ok r ->
  dict_get (fst r) da = Some (snd r) /\
  (forall d s, dict_get d da = Some s -> (key s <= key (snd r))%Q) /\
  (forall d s, dict_get d da = Some s -> d <> fst r -> (key s == key (snd r))%Q ->
     exists i j,
       first_occurrence (fst r) observations = Some i /\
       first_occurrence d observations = Some j /\ (i < j)%nat).
Proof.
  intros Hda Hmax.
  pose proof (dept_averages_keys _ _ Hda) as Hkeys.
  assert (Hnd : List.NoDup (dict_keys da)) by (rewrite Hkeys; apply first_appearance_NoDup).
  apply py_max_first_maximal in Hmax as (pre & post & Heq & Hpre & Hpost).
  assert (Hcases : forall d s, dict_get d da = Some s ->
            In (d, s) pre \/ (d, s) = r \/ In (d, s) post).
  { intros d s H. apply dict_get_Some_In in H. rewrite Heq in H.
    apply in_app_or in H as [H|[H|H]]; auto. }
  split; [|split].
  - apply In_dict_get; [exact Hnd|]. rewrite Heq, <- surjective_pairing.
    apply in_or_app. right. now left.
  - intros d s H. destruct (Hcases d s H) as [Hin|[<-|Hin]].
    + apply Qlt_le_weak. exact (Hpre _ Hin).
    + apply Qle_refl.
    + exact (Hpost _ Hin).
  - intros d s H Hne Hkey. destruct (Hcases d s H) as [Hin|[<-|Hin]].
    + apply Hpre in Hin. simpl in Hin. rewrite Hkey in Hin. now apply Qlt_irrefl in Hin.
    + now simpl in Hne.
    + apply (first_appearance_order observations (dict_keys pre) (dict_keys post)).
      * rewrite <- Hkeys, Heq. unfold dict_keys. now rewrite map_app.
      * apply (in_map fst) in Hin. exact Hin.
Qed.

Lemma select_bottlenecks_In (da : pydict Avg.t) (d : string) :
  In d (select_bottlenecks da)
  <-> exists s, In (d, s) da /\ (inject_Z bottleneck_threshold < Avg.avg_wait s)%Q.
Proof.
  unfold select_bottlenecks. rewrite in_map_iff. split.
  - intros ([d' s] & <- & H). apply filter_In in H as [Hin Hgt].
    apply float_gt_lt in Hgt. eauto.
  - intros (s & Hin & Hgt). exists (d, s). split; [reflexivity|].
    apply filter_In. split; [exact Hin|]. now apply float_gt_lt.
Qed.

(** The bottleneck list is the statistics mapping's key list, filtered. *)
Lemma select_bottlenecks_filter_keys (da : pydict Avg.t) :
  List.NoDup (dict_keys da) ->
  select_bottlenecks da
  = List.filter
      (fun d => match dict_get d da with
                | Some s => float_gt (Avg.avg_wait s) (inject_Z bottleneck_threshold)
                | None => false
                end)
      (dict_keys da).
Proof.
  unfold select_bottlenecks.
  induction da as [|[k v] da IH]; simpl; intros Hnd; [reflexivity|].
  apply List.NoDup_cons_iff in Hnd as [Hnot Hnd]. rewrite String.eqb_refl.
  rewrite (List.filter_ext_in
             (fun d => match (if String.eqb d k then Some v else dict_get d da) with
                       | Some s => float_gt (Avg.avg_wait s) (inject_Z bottleneck_threshold)
                       | None => false
                       end)
             (fun d => match dict_get d da with
                       | Some s => float_gt (Avg.avg_wait s) (inject_Z bottleneck_threshold)
                       | None => false
                       end) (dict_keys da)).
  - rewrite <- (IH Hnd). destruct (float_gt (Avg.avg_wait v) _); reflexivity.
  - intros d Hd. destruct (String.eqb_spec d k) as [->|_]; [contradiction | reflexivity].
Qed.

(** ** Tie-break of the two argmax selections *)

Lemma compose_fields (sel : selection) (n m : Z) (t1 t2 : datetime) :
  selected (compose sel n m t1 t2) = sel /\
  bottleneck_depts (compose sel n m t1 t2) = select_bottlenecks (dept_averages sel).
Proof.
  unfold compose. destruct (highest_wait_dept sel), (highest_volume_dept sel). auto.
Qed.

(** The highest-wait department is an entry with the greatest [avg_wait]. *)
Lemma highest_wait_is_maximal (observations : list QueueObservation) (a : analysis) :
  rule_based_analysis observations = Ok a ->
  dict_get (fst (highest_wait_dept (selected a))) (dept_averages (selected a))
  = Some (snd (highest_wait_dept (selected a))) /\
  (forall d s, dict_get d (dept_averages (selected a)) = Some s ->
     (Avg.avg_wait s <= Avg.avg_wait (snd (highest_wait_dept (selected a))))%Q).
Proof.
  intros Ha.
  apply rule_based_analysis_compose in Ha as (sel & oldest & newest & Hsel & ->).
  apply select_departments_inv in Hsel as (Hda & Hhw & _).
  rewrite (proj1 (compose_fields _ _ _ _ _)).
  destruct (argmax_first_occurrence Avg.avg_wait observations _ _ Hda Hhw) as (H1 & H2 & _).
  auto.
Qed.


(** C5: the highest-wait department is an entry of the statistics mapping
    with the greatest [avg_wait], and every other department that attains the
    same [avg_wait] first occurs later in the input list; the same holds,
    independently, for the highest-volume department and [avg_patients]. *)
Theorem tie_break_first_encountered (observations : list QueueObservation) (a : analysis) :
  rule_based_analysis observations = Ok a ->
  (dict_get (fst (highest_wait_dept (selected a))) (dept_averages (selected a))
   = Some (snd (highest_wait_dept (selected a))) /\
   (forall d s, dict_get d (dept_averages (selected a)) = Some s ->
      (Avg.avg_wait s <= Avg.avg_wait (snd (highest_wait_dept (selected a))))%Q) /\
   (forall d s, dict_get d (dept_averages (selected a)) = Some s ->
      d <> fst (highest_wait_dept (selected a)) ->
      (Avg.avg_wait s == Avg.avg_wait (snd (highest_wait_dept (selected a))))%Q ->
      exists i j,
        first_occurrence (fst (highest_wait_dept (selected a))) observations = Some i /\
        first_occurrence d observations = Some j /\ (i < j)%nat)) /\
  (dict_get (fst (highest_volume_dept (selected a))) (dept_averages (selected a))
   = Some (snd (highest_volume_dept (selected a))) /\
   (forall d s, dict_get d (dept_averages (selected a)) = Some s ->
      (Avg.avg_patients s <= Avg.avg_patients (snd (highest_volume_dept (selected a))))%Q) /\
   (forall d s, dict_get d (dept_averages (selected a)) = Some s ->
      d <> fst (highest_volume_dept (selected a)) ->
      (Avg.avg_patients s == Avg.avg_patients (snd (highest_volume_dept (selected a))))%Q ->
      exists i j,
        first_occurrence (fst (highest_volume_dept (selected a))) observations = Some i /\
        first_occurrence d observations = Some j /\ (i < j)%nat)).
Proof.
  intros Ha.
  apply rule_based_analysis_compose in Ha as (sel & oldest & newest & Hsel & ->).
  apply select_departments_inv in Hsel as (Hda & Hhw & Hhv).
  assert (Hs : selected (compose sel (Z.of_nat (length observations))
                           (Z.of_nat (length (aggregate observations))) oldest newest) = sel).
  { unfold compose. destruct (highest_wait_dept sel), (highest_volume_dept sel). reflexivity. }
  rewrite Hs. split.
  - exact (argmax_first_occurrence Avg.avg_wait observations _ _ Hda Hhw).
  - exact (argmax_first_occurrence Avg.avg_patients observations _ _ Hda Hhv).
Qed.

(** Two departments tie at 50 minutes and at 4 patients: "Lab", seen first, is
    selected twice. *)
Lemma tie_break_first_encountered_witness :
  exists a,
    rule_based_analysis
      [observation "Lab" 17 4 50; observation "ER" 16 4 50; observation "Lab" 15 4 50] = Ok a /\
    fst (highest_wait_dept (selected a)) = "Lab" /\
    fst (highest_volume_dept (selected a)) = "Lab" /\
    (forall d s, dict_get d (dept_averages (selected a)) = Some s ->
       (Avg.avg_wait s <= Avg.avg_wait (snd (highest_wait_dept (selected a))))%Q).
Proof.
  eexists. split; [reflexivity|]. split; [reflexivity|]. split; [reflexivity|].
  eapply (tie_break_first_encountered
            [observation "Lab" 17 4 50; observation "ER" 16 4 50; observation "Lab" 15 4 50]).
  reflexivity.
Defined.

(** ** Thresholds *)

Lemma dept_averages_lookup (observations : list QueueObservation) (sel : selection)
    (d : string) (s : Avg.t) :
  select_departments (aggregate observations) = Ok sel ->
  In (d, s) (dept_averages sel) <-> dict_get d (dept_averages sel) = Some s.
Proof.
  intros Hsel. apply select_departments_inv in Hsel as (Hda & _ & _).
  split; [|apply dict_get_Some_In].
  apply In_dict_get. rewrite (dept_averages_keys _ _ Hda). apply first_appearance_NoDup.
Qed.

(** C6: a department is in [bottleneck_depts] exactly when its [avg_wait] is
    strictly greater than 60, so one whose [avg_wait] is exactly 60.0 is not;
    the list keeps the departments in order of first appearance. *)
Theorem bottleneck_threshold_strict (observations : list QueueObservation) (a : analysis) :
  rule_based_analysis observations = Ok a ->
  (forall d s, dict_get d (dept_averages (selected a)) = Some s ->
     (In d (bottleneck_depts a) <-> (60 < Avg.avg_wait s)%Q)) /\
  (forall d s, dict_get d (dept_averages (selected a)) = Some s ->
     (Avg.avg_wait s == 60)%Q -> ~ In d (bottleneck_depts a)) /\
  bottleneck_depts a
  = List.filter
      (fun d => match dict_get d (dept_averages (selected a)) with
                | Some s => float_gt (Avg.avg_wait s) (inject_Z bottleneck_threshold)
                | None => false
                end)
      (first_appearance (map department observations)).
Proof.
  intros Ha.
  apply rule_based_analysis_compose in Ha as (sel & oldest & newest & Hsel & ->).
  destruct (compose_fields sel (Z.of_nat (length observations))
              (Z.of_nat (length (aggregate observations))) oldest newest) as [-> ->].
  pose proof (dept_averages_lookup observations sel) as Hlook.
  assert (Hiff : forall d s, dict_get d (dept_averages sel) = Some s ->
            (In d (select_bottlenecks (dept_averages sel)) <-> (60 < Avg.avg_wait s)%Q)).
  { intros d s Hd. rewrite select_bottlenecks_In. split.
    - intros (s' & Hin & Hgt). apply Hlook in Hin; [|exact Hsel].
      rewrite Hd in Hin. injection Hin as <-. exact Hgt.
    - intros Hgt. exists s. split; [|exact Hgt]. apply Hlook; assumption. }
  split; [exact Hiff|]. split.
  - intros d s Hd Heq Hin. apply (Hiff d s Hd) in Hin. rewrite Heq in Hin.
    now apply Qlt_irrefl in Hin.
  - apply select_departments_inv in Hsel as (Hda & _ & _).
    pose proof (dept_averages_keys _ _ Hda) as Hkeys.
    rewrite <- Hkeys. apply select_bottlenecks_filter_keys.
    rewrite Hkeys. apply first_appearance_NoDup.
Qed.

(** "ER" averages exactly 60.0 and "Lab" 61.0: only "Lab" is a bottleneck. *)
Lemma bottleneck_threshold_strict_witness :
  exists a,
    rule_based_analysis
      [observation "ER" 17 5 30; observation "Lab" 17 2 61; observation "ER" 16 10 90] = Ok a /\
    bottleneck_depts a = ["Lab"] /\
    (forall d s, dict_get d (dept_averages (selected a)) = Some s ->
       (Avg.avg_wait s == 60)%Q -> ~ In d (bottleneck_depts a)).
Proof.
  eexists. split; [reflexivity|]. split; [reflexivity|].
  eapply (bottleneck_threshold_strict
            [observation "ER" 17 5 30; observation "Lab" 17 2 61; observation "ER" 16 10 90]).
  reflexivity.
Defined.

(** The recommendation that is appended, by tier. *)
Lemma recommendation_tiers (observations : list QueueObservation) (a : analysis)
    (p : insight_part) :
  rule_based_analysis observations = Ok a ->
  is_recommendation p = true ->
  In p (insight_parts a)
  <-> p = recommendation (fst (highest_wait_dept (selected a)))
            (snd (highest_wait_dept (selected a))).
Proof.
  intros Ha Hp.
  apply rule_based_analysis_compose in Ha as (sel & oldest & newest & Hsel & ->).
  rewrite (proj1 (compose_fields _ _ _ _ _)). now apply compose_recommendation.
Qed.

(** C7, as the code has it: when the highest-wait department's [avg_wait] is
    exactly 30.0 the status-quo recommendation is selected and the monitoring
    one is not; the monitoring recommendation is selected exactly when that
    [avg_wait] is strictly greater than 30 and at most 60. *)
Theorem recommendation_at_thirty (observations : list QueueObservation) (a : analysis) :
  rule_based_analysis observations = Ok a ->
  ((Avg.avg_wait (snd (highest_wait_dept (selected a))) == 30)%Q ->
   In StatusQuoRecommendation (insight_parts a) /\
   forall d, ~ In (MonitoringRecommendation d) (insight_parts a)) /\
  ((exists d, In (MonitoringRecommendation d) (insight_parts a))
   <-> (30 < Avg.avg_wait (snd (highest_wait_dept (selected a))))%Q /\
       (Avg.avg_wait (snd (highest_wait_dept (selected a))) <= 60)%Q).
Proof.
  intros Ha.
  pose proof (fun p => recommendation_tiers observations a p Ha) as Hrec.
  unfold recommendation in Hrec.
  set (w := Avg.avg_wait (snd (highest_wait_dept (selected a)))) in *.
  change (inject_Z bottleneck_threshold) with 60%Q in Hrec.
  change (inject_Z 30) with 30%Q in Hrec.
  destruct (float_gt w 60%Q) eqn:H60;
    [apply float_gt_lt in H60 | apply float_gt_le in H60];
    (destruct (float_gt w 30%Q) eqn:H30;
     [apply float_gt_lt in H30 | apply float_gt_le in H30]).
  - split.
    + intros Heq. rewrite Heq in H30. now apply Qlt_irrefl in H30.
    + split.
      * intros [d Hd]. apply Hrec in Hd; [discriminate | reflexivity].
      * intros [_ Hle]. exfalso. apply (Qlt_irrefl 60). eapply Qlt_le_trans; eassumption.
  - split.
    + intros Heq. rewrite Heq in H60. discriminate.
    + split.
      * intros [d Hd]. apply Hrec in Hd; [discriminate | reflexivity].
      * intros [Hlt _]. exfalso. apply (Qlt_irrefl 30). eapply Qlt_le_trans; eassumption.
  - split.
    + intros Heq. rewrite Heq in H30. now apply Qlt_irrefl in H30.
    + split; [auto|]. intros _. eexists. apply Hrec; reflexivity.
  - split.
    + intros Heq. split; [apply Hrec; reflexivity|].
      intros d Hd. apply Hrec in Hd; [discriminate | reflexivity].
    + split.
      * intros [d Hd]. apply Hrec in Hd; [discriminate | reflexivity].
      * intros [Hlt _]. exfalso. apply (Qlt_irrefl 30). eapply Qlt_le_trans; eassumption.
Qed.

Lemma recommendation_at_thirty_witness :
  exists a,
    rule_based_analysis [observation "ER" 17 5 30] = Ok a /\
    ((exists d, In (MonitoringRecommendation d) (insight_parts a))
     <-> (30 < Avg.avg_wait (snd (highest_wait_dept (selected a))))%Q /\
         (Avg.avg_wait (snd (highest_wait_dept (selected a))) <= 60)%Q).
Proof.
  eexists. split; [reflexivity|].
  eapply (recommendation_at_thirty [observation "ER" 17 5 30]). reflexivity.
Defined.

(** C7 as stated fails: one observation of 30 minutes gives a highest-wait
    [avg_wait] of exactly 30.0, and the recommendation is the status-quo one,
    not the monitoring one. *)
Lemma monitoring_at_thirty_counterexample :
  exists a,
    rule_based_analysis [observation "ER" 17 5 30] = Ok a /\
    (Avg.avg_wait (snd (highest_wait_dept (selected a))) == 30)%Q /\
    recommendation (fst (highest_wait_dept (selected a)))
      (snd (highest_wait_dept (selected a))) = StatusQuoRecommendation /\
    In StatusQuoRecommendation (insight_parts a) /\
    ~ In (MonitoringRecommendation "ER") (insight_parts a).
Proof.
  eexists. split; [reflexivity|]. split; [reflexivity|]. split; [reflexivity|].
  split.
  - vm_compute. tauto.
  - vm_compute. intros H. repeat (destruct H as [H|H]; [discriminate|]). exact H.
Qed.

(** ** Bottleneck section and staffing recommendation *)

Lemma select_bottlenecks_nonempty (observations : list QueueObservation) (sel : selection) :
  select_departments (aggregate observations) = Ok sel ->
  select_bottlenecks (dept_averages sel) <> []
  <-> (60 < Avg.avg_wait (snd (highest_wait_dept sel)))%Q.
Proof.
  intros Hsel.
  destruct (select_departments_inv _ _ Hsel) as (Hda & Hhw & _).
  destruct (argmax_first_occurrence Avg.avg_wait observations _ _ Hda Hhw) as (Hin & Hmax & _).
  split.
  - intros Hne. destruct (select_bottlenecks (dept_averages sel)) as [|d ds] eqn:Hb;
      [congruence|].
    assert (Hd : In d (select_bottlenecks (dept_averages sel))) by (rewrite Hb; now left).
    apply select_bottlenecks_In in Hd as (s & Hs & Hgt).
    eapply Qlt_le_trans; [exact Hgt|].
    apply (Hmax d). now apply (dept_averages_lookup observations).
  - intros Hgt Hnil.
    assert (Hd : In (fst (highest_wait_dept sel)) (select_bottlenecks (dept_averages sel))).
    { apply select_bottlenecks_In. exists (snd (highest_wait_dept sel)).
      split; [now apply dict_get_Some_In | exact Hgt]. }
    rewrite Hnil in Hd. exact Hd.
Qed.

(** C9: the text has the bottleneck section exactly when it has the staffing
    recommendation, and both exactly when the highest-wait department's
    [avg_wait], which is the greatest of the statistics mapping, is strictly
    greater than 60. *)
Theorem bottleneck_section_iff_staffing (observations : list QueueObservation)
    (a : analysis) :
  rule_based_analysis observations = Ok a ->
  ((exists ds, In (PotentialBottlenecks ds) (insight_parts a))
   <-> (exists d, In (StaffingRecommendation d) (insight_parts a))) /\
  ((exists ds, In (PotentialBottlenecks ds) (insight_parts a))
   <-> (60 < Avg.avg_wait (snd (highest_wait_dept (selected a))))%Q) /\
  (forall d s, dict_get d (dept_averages (selected a)) = Some s ->
     (Avg.avg_wait s <= Avg.avg_wait (snd (highest_wait_dept (selected a))))%Q) /\
  dict_get (fst (highest_wait_dept (selected a))) (dept_averages (selected a))
  = Some (snd (highest_wait_dept (selected a))).
Proof.
  intros Ha.
  destruct (highest_wait_is_maximal observations a Ha) as (Hin & Hmax).
  pose proof (fun p => recommendation_tiers observations a p Ha) as Hrec.
  apply rule_based_analysis_compose in Ha as (sel & oldest & newest & Hsel & ->).
  rewrite (proj1 (compose_fields _ _ _ _ _)) in *.
  pose proof (select_bottlenecks_nonempty observations sel Hsel) as Hne.
  assert (Hsec : (exists ds, In (PotentialBottlenecks ds)
                    (insight_parts (compose sel (Z.of_nat (length observations))
                       (Z.of_nat (length (aggregate observations))) oldest newest)))
                 <-> (60 < Avg.avg_wait (snd (highest_wait_dept sel)))%Q).
  { rewrite <- Hne. split.
    - intros [ds Hds]. apply compose_bottlenecks in Hds as [-> Hds]. exact Hds.
    - intros H. eexists. apply compose_bottlenecks. split; [reflexivity | exact H]. }
  assert (Hst : (exists d, In (StaffingRecommendation d)
                   (insight_parts (compose sel (Z.of_nat (length observations))
                      (Z.of_nat (length (aggregate observations))) oldest newest)))
                <-> (60 < Avg.avg_wait (snd (highest_wait_dept sel)))%Q).
  { unfold recommendation in Hrec.
    change (inject_Z bottleneck_threshold) with 60%Q in Hrec.
    destruct (float_gt (Avg.avg_wait (snd (highest_wait_dept sel))) 60%Q) eqn:H60.
    - apply float_gt_lt in H60. split; [auto|]. intros _. eexists. apply Hrec; reflexivity.
    - apply float_gt_le in H60. split.
      + intros [d Hd]. apply Hrec in Hd; [|reflexivity].
        destruct (float_gt _ _); discriminate.
      + intros Hgt. exfalso. apply (Qlt_irrefl 60). eapply Qlt_le_trans; eassumption. }
  split; [rewrite Hsec, Hst; tauto|]. split; [exact Hsec|]. split; assumption.
Qed.

(** "Lab" averages 61.0: the bottleneck section and the staffing
    recommendation are both present. *)
Lemma bottleneck_section_iff_staffing_witness :
  exists a,
    rule_based_analysis
      [observation "ER" 17 5 30; observation "Lab" 17 2 61; observation "ER" 16 10 90] = Ok a /\
    ((exists ds, In (PotentialBottlenecks ds) (insight_parts a))
     <-> (exists d, In (StaffingRecommendation d) (insight_parts a))) /\
    In (PotentialBottlenecks ["Lab"]) (insight_parts a) /\
    In (StaffingRecommendation "Lab") (insight_parts a).
Proof.
  eexists. split; [reflexivity|]. split.
  - eapply (bottleneck_section_iff_staffing
              [observation "ER" 17 5 30; observation "Lab" 17 2 61; observation "ER" 16 10 90]).
    reflexivity.
  - vm_compute. tauto.
Defined.

(** ** The documented scenario *)

(** C8: three "ER" observations with waits 30, 90, 60 and patients 5, 10, 8,
    whatever their timestamps and notes, and no API key: the rule-based result
    is returned, with [avg_wait] 60.0, [max_wait] 90, no bottleneck and the
    monitoring recommendation. *)
Theorem scenario_three_er_observations (self : QueueInsightsService)
    (openai : openai_package) (t1 t2 t3 : datetime) (n1 n2 n3 : option string) :
  truthy (api_key self) = false ->
  exists a,
    rule_based_analysis
      [ {| department := "ER"; observed_at := t1; number_of_patients := 5;
           average_wait_minutes := 30; notes := n1 |};
        {| department := "ER"; observed_at := t2; number_of_patients := 10;
           average_wait_minutes := 90; notes := n2 |};
        {| department := "ER"; observed_at := t3; number_of_patients := 8;
           average_wait_minutes := 60; notes := n3 |} ] = Ok a /\
    generate_insights self openai
      [ {| department := "ER"; observed_at := t1; number_of_patients := 5;
           average_wait_minutes := 30; notes := n1 |};
        {| department := "ER"; observed_at := t2; number_of_patients := 10;
           average_wait_minutes := 90; notes := n2 |};
        {| department := "ER"; observed_at := t3; number_of_patients := 8;
           average_wait_minutes := 60; notes := n3 |} ]
    = Ok (insight_text_of a, false, rule_based_marker) /\
    fst (highest_wait_dept (selected a)) = "ER" /\
    (Avg.avg_wait (snd (highest_wait_dept (selected a))) == 60)%Q /\
    Avg.max_wait (snd (highest_wait_dept (selected a))) = 90 /\
    bottleneck_depts a = [] /\
    insight_parts a
    = [ Title; DataSummaryHeading; AnalyzedLine 3 1;
        TimePeriodLine (strftime t3 "%Y-%m-%d") (strftime t1 "%Y-%m-%d");
        KeyFindingsHeading;
        LongestWaitTimes "ER" (Avg.avg_wait (snd (highest_wait_dept (selected a)))) 90;
        RecommendationHeading; MonitoringRecommendation "ER"; RuleBasedNote ].
Proof.
  intros Hkey. eexists. split; [reflexivity|]. split.
  - unfold generate_insights. rewrite Hkey. reflexivity.
  - repeat split; reflexivity.
Qed.

(** The text of the scenario, with sample timestamps. *)
Example scenario_three_er_observations_text :
  _generate_rule_based_insights
    [observation "ER" 17 5 30; observation "ER" 16 10 90; observation "ER" 15 8 60]
  = Ok "**Queue Insights Analysis** (Rule-Based)

**Data Summary:**
- Analyzed 3 observations across 1 department(s)
- Time period: 2025-12-15 to 2025-12-17

**Key Findings:**
1. **Longest Wait Times:** ER has an average wait time of 60.0 minutes (max: 90 minutes)

**Recommendation:**
Monitor ER closely as wait times are elevated. Proactive scheduling adjustments may prevent future bottlenecks.

*Note: This analysis uses rule-based heuristics. For AI-powered insights, configure an OpenAI API key.*".
Proof. vm_compute. reflexivity. Qed.

Lemma scenario_three_er_observations_witness :
  exists text,
    generate_insights unconfigured None
      [observation "ER" 17 5 30; observation "ER" 16 10 90; observation "ER" 15 8 60]
    = Ok (text, false, rule_based_marker).
Proof.
  destruct (scenario_three_er_observations unconfigured None
              (sample_time 17) (sample_time 16) (sample_time 15) None None None eq_refl)
    as (a & _ & H & _).
  exists (insight_text_of a). exact H.
Defined.

(** ** Order invariance of the aggregation *)

Lemma aggregate_step_get (acc : pydict (Stats.t (list QueueObservation)))
    (o : QueueObservation) (d : string) :
  dict_get d (aggregate_step acc o)
  = if String.eqb d (department o)
    then Some (Stats.update (default (Stats.factory []) (dict_get (department o) acc))
                 (number_of_patients o) (average_wait_minutes o)
                 (Stats.observations (default (Stats.factory []) (dict_get (department o) acc))
                  ++ [o]))
    else dict_get d acc.
Proof. unfold aggregate_step. apply dict_get_set. Qed.

Lemma totals_update {L L' : Type} (s : Stats.t L) (s' : Stats.t L') (p w : Z) (l : L) (l' : L') :
  totals s = totals s' -> totals (Stats.update s p w l) = totals (Stats.update s' p w l').
Proof. unfold totals. simpl. intros [= -> -> -> ->]. reflexivity. Qed.

Lemma totals_Some {L L' : Type} (s : Stats.t L) (s' : Stats.t L') :
  option_map totals (Some s) = option_map totals (Some s') -> totals s = totals s'.
Proof. intros H. exact (f_equal (default (totals s)) H). Qed.

Lemma totals_default {L L' : Type} (x : option (Stats.t L)) (x' : option (Stats.t L'))
    (e : L) (e' : L') :
  option_map totals x = option_map totals x' ->
  totals (default (Stats.factory e) x) = totals (default (Stats.factory e') x').
Proof.
  destruct x as [s|], x' as [s'|]; simpl; intros H; try discriminate.
  - now apply totals_Some.
  - reflexivity.
Qed.

Lemma aggregate_step_respects (acc acc' : pydict (Stats.t (list QueueObservation)))
    (o : QueueObservation) :
  same_totals acc acc' -> same_totals (aggregate_step acc o) (aggregate_step acc' o).
Proof.
  intros H d. rewrite !aggregate_step_get.
  destruct (String.eqb d (department o)); [|apply H].
  simpl. f_equal. apply totals_update, totals_default, H.
Qed.

Lemma aggregate_step_swap (acc : pydict (Stats.t (list QueueObservation)))
    (x y : QueueObservation) :
  same_totals (aggregate_step (aggregate_step acc x) y)
              (aggregate_step (aggregate_step acc y) x).
Proof.
  intros d. rewrite !aggregate_step_get.
  destruct (String.eqb_spec (department x) (department y)) as [E|Hne].
  - rewrite E, String.eqb_refl. destruct (String.eqb d (department y)); [|reflexivity].
    simpl. unfold totals. simpl. f_equal. rewrite !pair_equal_spec. repeat split; lia.
  - destruct (String.eqb_spec (department y) (department x)) as [E|_]; [congruence|].
    destruct (String.eqb_spec d (department y)) as [Hy|Hy];
      destruct (String.eqb_spec d (department x)) as [Hx|Hx];
      congruence || reflexivity.
Qed.

Lemma same_totals_trans {L1 L2 L3 : Type} (a : pydict (Stats.t L1)) (b : pydict (Stats.t L2))
    (c : pydict (Stats.t L3)) :
  same_totals a b -> same_totals b c -> same_totals a c.
Proof. intros H1 H2 d. now rewrite H1. Qed.

Lemma aggregate_permutation (l l' : list QueueObservation) :
  Permutation l l' ->
  forall acc acc', same_totals acc acc' ->
    same_totals (fold_left aggregate_step l acc) (fold_left aggregate_step l' acc').
Proof.
  induction 1 as [|x l l' _ IH|x y l|l1 l2 l3 _ IH1 _ IH2]; intros acc acc' Hacc; simpl.
  - exact Hacc.
  - apply IH. now apply aggregate_step_respects.
  - assert (Hl : forall a a', same_totals a a' ->
              same_totals (fold_left aggregate_step l a) (fold_left aggregate_step l a')).
    { clear. induction l as [|o l IH]; intros a a' Ha; simpl; [exact Ha|].
      apply IH. now apply aggregate_step_respects. }
    apply Hl. eapply same_totals_trans; [apply aggregate_step_swap|].
    now apply aggregate_step_respects, aggregate_step_respects.
  - eapply same_totals_trans; [apply IH1; intros d; reflexivity|]. now apply IH2.
Qed.

Lemma averages_of_totals {L L' : Type} (s : Stats.t L) (s' : Stats.t L') :
  totals s = totals s' -> averages_of s = averages_of s'.
Proof. unfold totals, averages_of. intros [= -> -> -> ->]. reflexivity. Qed.

Lemma truediv_raise (a b : Z) (e : exn) :
  truediv a b = Raise e -> (b = 0 /\ e = ZeroDivisionError) \/ e = OverflowError.
Proof.
  unfold truediv. destruct (Z.eqb_spec b 0) as [->|Hb]; [intros [= <-]; auto|].
  destruct (a =? 0); [discriminate|].
  destruct (round_binary64 _ _) as [m ex]. destruct (_ <=? _); [|discriminate].
  intros [= <-]. auto.
Qed.

Lemma averages_of_raise {L : Type} (s : Stats.t L) (e : exn) :
  averages_of s = Raise e -> Stats.count s <> 0 -> e = OverflowError.
Proof.
  unfold averages_of. intros H Hc.
  destruct (truediv (Stats.total_patients s) (Stats.count s)) as [q|e1] eqn:H1; simpl in H.
  - destruct (truediv (Stats.total_wait s) (Stats.count s)) as [q'|e2] eqn:H2; simpl in H;
      [discriminate|]. injection H as <-.
    apply truediv_raise in H2 as [[? _]|?]; [contradiction | assumption].
  - injection H as <-. apply truediv_raise in H1 as [[? _]|?]; [contradiction | assumption].
Qed.

(** An invariant of the accumulator entries that every loop iteration
    establishes holds for every entry of the aggregation. *)
Lemma Forall_dict_set {V : Type} (P : V -> Prop) (k : string) (v : V) (d : pydict V) :
  List.Forall (fun e => P (snd e)) d -> P v ->
  List.Forall (fun e => P (snd e)) (dict_set k v d).
Proof.
  intros Hd Hv. induction Hd as [|[k0 v0] d H0 Hd IH]; simpl.
  - constructor; [exact Hv | constructor].
  - destruct (String.eqb k k0); constructor; assumption.
Qed.

Lemma aggregate_invariant (P : Stats.t (list QueueObservation) -> Prop)
    (Q : QueueObservation -> Prop) :
  (forall s o l, (s = Stats.factory [] \/ P s) -> Q o ->
     P (Stats.update s (number_of_patients o) (average_wait_minutes o) l)) ->
  forall observations acc,
    List.Forall Q observations ->
    List.Forall (fun e => P (snd e)) acc ->
    List.Forall (fun e => P (snd e)) (fold_left aggregate_step observations acc).
Proof.
  intros Hstep observations. induction observations as [|o rest IH]; intros acc HQ Hacc; simpl.
  - exact Hacc.
  - inversion HQ as [|? ? Ho Hrest]; subst. apply IH; [exact Hrest|].
    unfold aggregate_step. apply Forall_dict_set; [exact Hacc|].
    apply Hstep; [|exact Ho].
    destruct (dict_get (department o) acc) as [s|] eqn:Hs; simpl; [right | now left].
    apply dict_get_Some_In in Hs. rewrite List.Forall_forall in Hacc. exact (Hacc _ Hs).
Qed.

Lemma aggregate_count_positive (observations : list QueueObservation) (d : string)
    (s : Stats.t (list QueueObservation)) :
  In (d, s) (aggregate observations) -> 1 <= Stats.count s.
Proof.
  intros Hin.
  pose proof (aggregate_invariant (fun s => 1 <= Stats.count s) (fun _ => True)) as H.
  specialize (H ltac:(intros s0 o l [->|Hs] _; simpl; lia) observations []
                ltac:(apply List.Forall_forall; auto) ltac:(constructor)).
  rewrite List.Forall_forall in H. exact (H _ Hin).
Qed.

Lemma aggregate_NoDup (observations : list QueueObservation) :
  List.NoDup (dict_keys (aggregate observations)).
Proof. rewrite aggregate_keys. apply first_appearance_NoDup. Qed.

(** C4: permuting the observations leaves the entry of [dept_averages]
    ([count], [avg_patients], [avg_wait], [max_wait]) of every department
    unchanged, and the aggregation succeeds on the one list exactly when it
    does on the other. *)
Theorem aggregation_order_invariant (observations observations' : list QueueObservation)
    (d : string) :
  Permutation observations observations' ->
  department_statistics observations d = department_statistics observations' d.
Proof.
  intros Hperm.
  assert (Hsame : same_totals (aggregate observations) (aggregate observations')).
  { apply aggregate_permutation; [exact Hperm | intros k; reflexivity]. }
  assert (Hok : forall l l' da, same_totals (aggregate l) (aggregate l') ->
            calculate_averages (aggregate l) = Ok da ->
            forall e, calculate_averages (aggregate l') = Raise e -> False).
  { intros l l' da Hs Hda e He.
    apply calculate_averages_raise in He as (k & s' & Hin & Hraise).
    apply In_dict_get in Hin; [|apply aggregate_NoDup].
    pose proof (Hs k) as Hk. rewrite Hin in Hk.
    pose proof (calculate_averages_get _ _ k Hda) as Hget.
    destruct (dict_get k (aggregate l)) as [s|]; [|discriminate].
    apply totals_Some in Hk. destruct Hget as (a & Ha & _).
    rewrite (averages_of_totals _ _ Hk) in Ha. congruence. }
  assert (Hsym : same_totals (aggregate observations') (aggregate observations)).
  { intros k. symmetry. apply Hsame. }
  assert (Hexn : forall l e, calculate_averages (aggregate l) = Raise e -> e = OverflowError).
  { intros l e He. apply calculate_averages_raise in He as (k & s & Hin & Hraise).
    apply (averages_of_raise _ _ Hraise).
    apply aggregate_count_positive in Hin. lia. }
  unfold department_statistics.
  destruct (calculate_averages (aggregate observations)) as [da|e] eqn:H1;
    destruct (calculate_averages (aggregate observations')) as [da'|e'] eqn:H2; simpl.
  - f_equal.
    pose proof (calculate_averages_get _ _ d H1) as G1.
    pose proof (calculate_averages_get _ _ d H2) as G2.
    pose proof (Hsame d) as Hd.
    destruct (dict_get d (aggregate observations)) as [s|],
             (dict_get d (aggregate observations')) as [s'|]; try discriminate.
    + apply totals_Some in Hd.
      destruct G1 as (a & Ha & ->), G2 as (a' & Ha' & ->).
      rewrite (averages_of_totals _ _ Hd) in Ha. congruence.
    + congruence.
  - exfalso. exact (Hok _ _ _ Hsame H1 _ H2).
  - exfalso. exact (Hok _ _ _ Hsym H2 _ H1).
  - now rewrite (Hexn _ _ H1), (Hexn _ _ H2).
Qed.

Lemma aggregation_order_invariant_witness :
  department_statistics
    [observation "ER" 17 5 30; observation "Lab" 17 2 61; observation "ER" 16 10 90] "ER"
  = department_statistics
      [observation "ER" 16 10 90; observation "ER" 17 5 30; observation "Lab" 17 2 61] "ER".
Proof.
  apply aggregation_order_invariant.
  apply Permutation_sym, (Permutation_cons_app [observation "ER" 17 5 30; observation "Lab" 17 2 61] []).
  reflexivity.
Defined.

(** ** Totality on well-formed input *)

Lemma ilog2_quot_upper (a b : Z) : ilog2_quot a b <= Z.log2 a - Z.log2 b.
Proof. unfold ilog2_quot. destruct (_ <=? _); lia. Qed.

(** The quotient of a total by its count, within the range of a 32-bit
    column, never overflows a float. *)
Lemma truediv_in_range (a b : Z) :
  1 <= b -> 0 <= a <= b * int32_max -> exists q, truediv a b = Ok q.
Proof.
  intros Hb Ha. unfold truediv.
  destruct (Z.eqb_spec b 0) as [E|_]; [lia|].
  destruct (Z.eqb_spec a 0) as [_|Ha0]; [eauto|].
  rewrite (Z.abs_eq a), (Z.abs_eq b) by lia.
  unfold round_binary64.
  set (e := Z.max (ilog2_quot a b - 52) (-1074)).
  assert (He : e <= -21).
  { assert (Z.log2 a <= 31 + Z.log2 b).
    { rewrite <- Z.log2_mul_pow2 by lia. apply Z.log2_le_mono.
      unfold int32_max in Ha. change (2 ^ 31) with 2147483648. lia. }
    pose proof (ilog2_quot_upper a b). lia. }
  unfold round_half_even_scaled.
  replace (Z.max e 0) with 0 by lia. replace (Z.max (- e) 0) with (- e) by lia.
  rewrite !Z.pow_0_r, !Z.mul_1_r.
  set (P := 2 ^ (- e)).
  assert (HP : 1 <= P) by (pose proof (Z.pow_pos_nonneg 2 (- e)); lia).
  assert (Hq : a * P / b <= int32_max * P).
  { apply Z.div_le_upper_bound; [lia|]. nia. }
  assert (HT : int32_max + 1 <= 2 ^ 1024) by (apply Z.leb_le; reflexivity).
  set (T := 2 ^ 1024) in *. set (q := a * P / b) in *.
  assert (Hm : (if (b <? 2 * (a * P mod b)) || (b =? 2 * (a * P mod b)) && Z.odd q
                then q + 1 else q) <= q + 1) by (destruct (_ || _); lia).
  destruct (Z.leb_spec (T * P) (if (b <? 2 * (a * P mod b)) || (b =? 2 * (a * P mod b)) && Z.odd q
                                then q + 1 else q)) as [Hle|_]; [|eauto].
  exfalso. unfold int32_max in *. nia.
Qed.

Lemma well_formed_in_range (observations : list QueueObservation) :
  List.Forall well_formed observations ->
  List.Forall (fun e => in_range (snd e)) (aggregate observations).
Proof.
  intros Hwf. apply (aggregate_invariant in_range well_formed); [|exact Hwf|constructor].
  intros s o l Hs (_ & Hp & Hw). unfold in_range, int32_max in *.
  destruct Hs as [->|(Hc & Hp' & Hw')]; simpl; lia.
Qed.

Lemma calculate_averages_in_range {L : Type} (dept_stats : pydict (Stats.t L)) :
  List.Forall (fun e => in_range (snd e)) dept_stats ->
  exists da, calculate_averages dept_stats = Ok da.
Proof.
  induction 1 as [|[d s] rest (Hc & Hp & Hw) _ [da IH]]; simpl; [eauto|].
  unfold averages_of. simpl in *.
  destruct (truediv_in_range _ _ Hc Hp) as [q1 ->].
  destruct (truediv_in_range _ _ Hc Hw) as [q2 ->]. simpl. rewrite IH. simpl. eauto.
Qed.

(** The rule-based strategy returns on every non-empty list of well-formed
    observations. *)
Lemma rule_based_analysis_total (observations : list QueueObservation) :
  observations <> [] -> List.Forall well_formed observations ->
  exists a, rule_based_analysis observations = Ok a.
Proof.
  intros Hne Hwf. unfold rule_based_analysis, select_departments.
  destruct (calculate_averages_in_range _ (well_formed_in_range _ Hwf)) as [da Hda].
  rewrite Hda. simpl.
  assert (Hda_ne : da <> []).
  { pose proof (dept_averages_keys _ _ Hda) as Hk.
    destruct observations as [|o rest]; [congruence|].
    destruct da; [discriminate | congruence]. }
  destruct (py_max_nonempty (fun x => Avg.avg_wait (snd x)) da Hda_ne) as [hw ->].
  destruct (py_max_nonempty (fun x => Avg.avg_patients (snd x)) da Hda_ne) as [hv ->].
  simpl. unfold getitem_last, getitem_first.
  destruct observations as [|o rest]; [congruence|].
  destruct (last (o :: rest)) as [o'|] eqn:Hlast.
  - simpl. eauto.
  - apply last_None in Hlast. discriminate.
Qed.

(** The rule-based text starts with the title, so it is never empty. *)
Lemma insight_text_nonempty (observations : list QueueObservation) (a : analysis) :
  rule_based_analysis observations = Ok a -> insight_text_of a <> EmptyString.
Proof.
  intros Ha.
  apply rule_based_analysis_compose in Ha as (sel & oldest & newest & _ & ->).
  unfold insight_text_of, compose.
  destruct (highest_wait_dept sel), (highest_volume_dept sel). simpl. discriminate.
Qed.

(** ** The entry point *)

Lemma generate_insights_unconfigured (self : QueueInsightsService) (openai : openai_package)
    (observations : list QueueObservation) :
  observations <> [] -> truthy (api_key self) = false ->
  generate_insights self openai observations = rule_based_result observations.
Proof.
  intros Hne Hkey. unfold generate_insights. rewrite Hkey.
  destruct observations; [congruence | reflexivity].
Qed.

(** An exception of the AI strategy is absorbed: the result is the
    rule-based one. *)
Lemma generate_insights_ai_raises (self : QueueInsightsService) (openai : openai_package)
    (observations : list QueueObservation) (e : exn) :
  observations <> [] ->
  _generate_ai_insights self openai observations = Raise e ->
  generate_insights self openai observations = rule_based_result observations.
Proof.
  intros Hne Hai. unfold generate_insights. rewrite Hai.
  destruct observations; [congruence|]. destruct (truthy _); reflexivity.
Qed.

Lemma generate_insights_ai_returns (self : QueueInsightsService) (openai : openai_package)
    (observations : list QueueObservation) (text : string) :
  observations <> [] -> truthy (api_key self) = true ->
  _generate_ai_insights self openai observations = Ok text ->
  generate_insights self openai observations = Ok (text, true, model self).
Proof.
  intros Hne Hkey Hai. unfold generate_insights. rewrite Hkey, Hai.
  destruct observations; [congruence | reflexivity].
Qed.

(** The ways the AI strategy raises: the package is missing, the call
    raises, the completion has no choice, or its first choice has no
    content.  Nothing else makes it raise. *)
Lemma _generate_ai_insights_raises (self : QueueInsightsService) (openai : openai_package)
    (observations : list QueueObservation) :
  (exists e, _generate_ai_insights self openai observations = Raise e)
  <-> openai = None \/
      exists create, openai = Some create /\
        match create (api_key self)
                (chat_request self (prompt_of (_prepare_observation_summary observations)))
        with
        | Raise _ => True
        | Ok response =>
            match choices response with
            | [] => True
            | c :: _ => content c = None
            end
        end.
Proof.
  unfold _generate_ai_insights. destruct openai as [create|].
  - destruct (create _ _) as [response|e] eqn:Hc; simpl.
    + unfold first_content. destruct (choices response) as [|c cs] eqn:Hch.
      * split; [intros _; right | intros _; eauto].
        exists create. rewrite Hc, Hch. auto.
      * destruct (content c) as [text|] eqn:Hcontent.
        -- split; [intros [e He]; discriminate|].
           intros [H|(create' & [= <-] & H)]; [discriminate|].
           rewrite Hc, Hch, Hcontent in H. discriminate.
        -- split; [intros _; right | intros _; eauto].
           exists create. rewrite Hc, Hch. auto.
    + split; [intros _; right | intros _; eauto].
      exists create. rewrite Hc. auto.
  - split; [auto | eauto].
Qed.

Lemma rule_based_result_total (observations : list QueueObservation) :
  observations <> [] -> List.Forall well_formed observations ->
  exists text,
    rule_based_result observations = Ok (text, false, rule_based_marker) /\
    text <> EmptyString.
Proof.
  intros Hne Hwf. destruct (rule_based_analysis_total _ Hne Hwf) as [a Ha].
  exists (insight_text_of a). split; [|exact (insight_text_nonempty _ _ Ha)].
  unfold rule_based_result, _generate_rule_based_insights. now rewrite Ha.
Qed.

(** On non-empty well-formed input the entry point always returns, with the
    configured model when the flag is set and the rule-based marker and a
    non-empty text otherwise. *)
Lemma generate_insights_total (self : QueueInsightsService) (openai : openai_package)
    (observations : list QueueObservation) :
  observations <> [] -> List.Forall well_formed observations ->
  exists text flag model_used,
    generate_insights self openai observations = Ok (text, flag, model_used) /\
    (flag = true -> model_used = model self /\ truthy (api_key self) = true) /\
    (flag = false -> model_used = rule_based_marker /\ text <> EmptyString).
Proof.
  intros Hne Hwf. destruct (rule_based_result_total _ Hne Hwf) as (text & Hrb & Htext).
  destruct (truthy (api_key self)) eqn:Hkey.
  - destruct (_generate_ai_insights self openai observations) as [ai_text|e] eqn:Hai.
    + exists ai_text, true, (model self).
      rewrite (generate_insights_ai_returns _ _ _ _ Hne Hkey Hai).
      split; [reflexivity|]. split; [auto | discriminate].
    + exists text, false, rule_based_marker.
      rewrite (generate_insights_ai_raises _ _ _ _ Hne Hai).
      split; [exact Hrb|]. split; [discriminate | auto].
  - exists text, false, rule_based_marker.
    rewrite (generate_insights_unconfigured _ _ _ Hne Hkey).
    split; [exact Hrb|]. split; [discriminate | auto].
Qed.

(** C1 at a failing input: with an API key configured and a completion whose
    content is blank, the entry point returns an empty text flagged as
    AI-generated. *)
Theorem generate_insights_blank_completion :
  well_formed (observation "ER" 17 5 30) /\
  generate_insights configured blank_completion [observation "ER" 17 5 30]
  = Ok (EmptyString, true, "gpt-4o-mini").
Proof.
  split; [|reflexivity].
  unfold well_formed, int32_max. simpl. repeat split; try lia. discriminate.
Qed.

(** C2 at the same input: the blank completion is not treated as a failure,
    so the result differs from the rule-based one in its three components. *)
Theorem blank_completion_not_a_failure :
  exists text,
    rule_based_result [observation "ER" 17 5 30] = Ok (text, false, rule_based_marker) /\
    text <> EmptyString /\
    _generate_ai_insights configured blank_completion [observation "ER" 17 5 30]
    = Ok EmptyString /\
    generate_insights configured blank_completion [observation "ER" 17 5 30]
    = Ok (EmptyString, true, model configured).
Proof.
  eexists. split; [reflexivity|]. split; [discriminate|]. split; reflexivity.
Qed.

(** ** What the methods leave unchanged *)

Section Frames.
Variable h0 : gmap Ref.loc Ref.pyobj.

Lemma frames_ret {A : Type} (P : A -> Prop) (a : A) : P a -> frames h0 P (Ref.ret a).
Proof. intros Ha w Hw. simpl. split; [exact Hw|]. now intros a' [= <-]. Qed.

Lemma frames_raise {A : Type} (P : A -> Prop) (e : exn) : frames h0 P (Ref.raise e).
Proof. intros w Hw. simpl. split; [exact Hw | discriminate]. Qed.

Lemma frames_lift {A : Type} (r : result A) : frames h0 (fun a => r = Ok a) (Ref.lift r).
Proof. intros w Hw. simpl. split; [exact Hw | auto]. Qed.

Lemma frames_weaken {A : Type} (P Q : A -> Prop) (m : Ref.M A) :
  (forall a, P a -> Q a) -> frames h0 P m -> frames h0 Q m.
Proof. intros HPQ Hm w Hw. destruct (Hm w Hw) as [H1 H2]. split; auto. Qed.

Lemma frames_bind {A B : Type} (P : A -> Prop) (Q : B -> Prop) (m : Ref.M A)
    (k : A -> Ref.M B) :
  frames h0 P m -> (forall a, P a -> frames h0 Q (k a)) -> frames h0 Q (Ref.bind m k).
Proof.
  intros Hm Hk w Hw. unfold Ref.bind. destruct (Hm w Hw) as [H1 H2].
  destruct (m w) as [[a|e] w']; simpl in *.
  - exact (Hk a (H2 a eq_refl) w' H1).
  - split; [exact H1 | discriminate].
Qed.

Lemma frames_try_except {A : Type} (Q : A -> Prop) (body : Ref.M A)
    (handler : exn -> Ref.M A) :
  frames h0 Q body -> (forall e, frames h0 Q (handler e)) ->
  frames h0 Q (Ref.try_except body handler).
Proof.
  intros Hb Hh w Hw. unfold Ref.try_except. destruct (Hb w Hw) as [H1 H2].
  destruct (body w) as [[a|e] w']; simpl in *.
  - split; [exact H1 | exact H2].
  - exact (Hh e w' H1).
Qed.

Lemma frames_read_list (l : Ref.loc) : frames h0 (fun _ => True) (Ref.read_list l).
Proof.
  intros w Hw. unfold Ref.read_list.
  destruct (Ref.heap w !! l) as [[o|items]|]; simpl; auto.
Qed.

Lemma frames_read_obs (r : Ref.loc) : frames h0 (fun _ => True) (Ref.read_obs r).
Proof.
  intros w Hw. unfold Ref.read_obs.
  destruct (Ref.heap w !! r) as [[o|items]|]; simpl; auto.
Qed.

(** A new list object is outside [h0]. *)
Lemma frames_new_list : frames h0 (fun l => h0 !! l = None) Ref.new_list.
Proof.
  intros w Hw. unfold Ref.new_list. simpl.
  assert (Hfresh : h0 !! fresh (dom (Ref.heap w)) = None).
  { eapply lookup_weaken_None; [|exact Hw]. apply not_elem_of_dom, is_fresh. }
  split; [now apply insert_subseteq_r|]. now intros l [= <-].
Qed.

(** Appending to a list object outside [h0] leaves [h0] as it is. *)
Lemma frames_list_append (l r : Ref.loc) :
  h0 !! l = None -> frames h0 (fun _ => True) (Ref.list_append l r).
Proof.
  intros Hl w Hw. unfold Ref.list_append.
  destruct (Ref.heap w !! l) as [[o|items]|]; simpl; auto.
  split; [now apply insert_subseteq_r | auto].
Qed.

Lemma frames_call_api (create : option string -> ChatRequest -> result ChatCompletion)
    (key : option string) (req : ChatRequest) :
  frames h0 (fun _ => True) (Ref.call_api create key req).
Proof. intros w Hw. simpl. auto. Qed.

Lemma frames_logger (r : Ref.log_record) : frames h0 (fun _ => True) (Ref.logger r).
Proof. intros w Hw. simpl. auto. Qed.

Lemma frames_aggregate_loop (items : list Ref.loc) (dept_stats : pydict (Stats.t Ref.loc)) :
  lists_outside h0 dept_stats ->
  frames h0 (lists_outside h0) (Ref.aggregate_loop items dept_stats).
Proof.
  revert dept_stats. induction items as [|r rest IH]; intros dept_stats Hout; simpl.
  - now apply frames_ret.
  - eapply frames_bind; [apply frames_read_obs|]. intros obs _.
    eapply (frames_bind (fun s => h0 !! Stats.observations s = None)).
    + destruct (dict_get (department obs) dept_stats) as [s|] eqn:Hs.
      * apply frames_ret. apply dict_get_Some_In in Hs.
        unfold lists_outside in Hout. rewrite List.Forall_forall in Hout.
        exact (Hout _ Hs).
      * eapply frames_bind; [apply frames_new_list|].
        intros l Hl. now apply frames_ret.
    + intros s Hs. eapply frames_bind; [now apply frames_list_append|].
      intros _ _. apply IH.
      apply (Forall_dict_set (fun s => h0 !! Stats.observations s = None));
        [exact Hout | exact Hs].
Qed.

Lemma frames_getitem (l : Ref.loc) :
  frames h0 (fun _ => True) (Ref.getitem_first l) /\
  frames h0 (fun _ => True) (Ref.getitem_last l).
Proof.
  split; (eapply frames_bind; [apply frames_read_list|]; intros items _;
          eapply frames_bind; [apply frames_lift|]; intros r _; apply frames_read_obs).
Qed.

Lemma frames_rule_based_analysis (l : Ref.loc) :
  frames h0 (fun _ => True) (Ref.rule_based_analysis l).
Proof.
  unfold Ref.rule_based_analysis.
  eapply frames_bind; [apply frames_read_list|]. intros items _.
  eapply frames_bind; [apply frames_aggregate_loop; constructor|]. intros dept_stats _.
  eapply frames_bind; [apply frames_lift|]. intros sel _.
  eapply frames_bind; [apply frames_read_list|]. intros items' _.
  eapply frames_bind; [apply frames_getitem|]. intros oldest _.
  eapply frames_bind; [apply frames_getitem|]. intros newest _.
  now apply frames_ret.
Qed.

Lemma frames_summary_loop (i : Z) (items : list Ref.loc) :
  frames h0 (fun _ => True) (Ref.summary_loop i items).
Proof.
  revert i. induction items as [|r rest IH]; intros i; simpl.
  - now apply frames_ret.
  - eapply frames_bind; [apply frames_read_obs|]. intros obs _.
    eapply frames_bind; [apply IH|]. intros lines _. now apply frames_ret.
Qed.

Lemma frames_generate_ai_insights (self : QueueInsightsService) (openai : openai_package)
    (l : Ref.loc) :
  frames h0 (fun _ => True) (Ref._generate_ai_insights self openai l).
Proof.
  unfold Ref._generate_ai_insights. destruct openai as [create|]; [|apply frames_raise].
  eapply frames_bind.
  { unfold Ref._prepare_observation_summary.
    eapply frames_bind; [apply frames_read_list|]. intros items _.
    eapply frames_bind; [apply frames_summary_loop|]. intros entries _.
    eapply frames_bind; [apply frames_read_list|]. intros items' _.
    apply (frames_ret (fun _ => True)). exact I. }
  intros obs_summary _.
  eapply frames_bind; [apply frames_call_api|]. intros response _.
  eapply frames_weaken; [|apply frames_lift]. auto.
Qed.

Lemma frames_rule_based_result (l : Ref.loc) :
  frames h0 (fun _ => True) (Ref.rule_based_result l).
Proof.
  unfold Ref.rule_based_result, Ref._generate_rule_based_insights.
  eapply frames_bind; [apply frames_logger|]. intros _ _.
  eapply frames_bind.
  { eapply frames_bind; [apply frames_rule_based_analysis|]. intros a _.
    apply (frames_ret (fun _ => True)). exact I. }
  intros text _. now apply frames_ret.
Qed.

Lemma frames_generate_insights (self : QueueInsightsService) (openai : openai_package)
    (l : Ref.loc) :
  frames h0 (fun _ => True) (Ref.generate_insights self openai l).
Proof.
  unfold Ref.generate_insights.
  eapply frames_bind; [apply frames_read_list|]. intros [|r items] _.
  - now apply frames_ret.
  - destruct (truthy (api_key self)); [|apply frames_rule_based_result].
    apply frames_try_except.
    + eapply frames_bind; [apply frames_generate_ai_insights|]. intros text _.
      eapply frames_bind; [apply frames_logger|]. intros _ _. now apply frames_ret.
    + intros e. eapply frames_bind; [apply frames_logger|]. intros _ _.
      apply frames_rule_based_result.
Qed.

End Frames.

Lemma snapshot_weaken (h h' : gmap Ref.loc Ref.pyobj) (l : Ref.loc)
    (observations : list QueueObservation) :
  h ⊆ h' -> Ref.snapshot h l = Some observations -> Ref.snapshot h' l = Some observations.
Proof.
  intros Hsub. unfold Ref.snapshot.
  destruct (h !! l) as [[o|items]|] eqn:Hl; try discriminate.
  rewrite (lookup_weaken _ _ _ _ Hl Hsub). rewrite !mapM_Some.
  intros H. eapply Forall2_impl; [exact H|]. simpl. intros r o Hr.
  destruct (h !! r) as [[o'|items']|] eqn:Hr'; try discriminate.
  now rewrite (lookup_weaken _ _ _ _ Hr' Hsub).
Qed.

(** C10: whatever the service, the package and the store, every object the
    store held before the call is the same after it; in particular the list
    passed in has the same items, in the same order, with the same fields. *)
Theorem generate_insights_leaves_input_unchanged (self : QueueInsightsService)
    (openai : openai_package) (w : Ref.world) (l : Ref.loc)
    (observations : list QueueObservation) :
  Ref.snapshot (Ref.heap w) l = Some observations ->
  Ref.snapshot (Ref.heap (snd (Ref.generate_insights self openai l w))) l
  = Some observations /\
  Ref.heap w ⊆ Ref.heap (snd (Ref.generate_insights self openai l w)).
Proof.
  intros Hsnap.
  destruct (frames_generate_insights (Ref.heap w) self openai l w) as [Hsub _];
    [reflexivity|].
  split; [|exact Hsub]. exact (snapshot_weaken _ _ _ _ Hsub Hsnap).
Qed.

Lemma generate_insights_leaves_input_unchanged_witness :
  Ref.snapshot
    (Ref.heap (snd (Ref.generate_insights configured blank_completion 1%positive sample_world)))
    1%positive
  = Some [observation "ER" 17 5 30; observation "Lab" 16 2 61].
Proof.
  exact (proj1 (generate_insights_leaves_input_unchanged configured blank_completion
                  sample_world 1%positive
                  [observation "ER" 17 5 30; observation "Lab" 16 2 61] eq_refl)).
Defined.

(** ** Empty input *)

(** C3: on the empty list the entry point returns the fixed no-data message,
    flagged rule-based, whatever the API key and the package; the world it
    leaves is the world it found: no request was sent, nothing was logged and
    no object was created. *)
Theorem generate_insights_empty_input (self : QueueInsightsService)
    (openai : openai_package) (w : Ref.world) (l : Ref.loc) :
  Ref.heap w !! l = Some (Ref.ListObject []) ->
  generate_insights self openai [] = Ok (no_data_message, false, rule_based_marker) /\
  Ref.generate_insights self openai l w
  = (Ok (no_data_message, false, rule_based_marker), w).
Proof.
  intros Hl. split; [reflexivity|].
  unfold Ref.generate_insights, Ref.bind, Ref.read_list. rewrite Hl. reflexivity.
Qed.

Lemma generate_insights_empty_input_witness :
  Ref.generate_insights configured blank_completion 1%positive empty_world
  = (Ok (no_data_message, false, rule_based_marker), empty_world).
Proof.
  exact (proj2 (generate_insights_empty_input configured blank_completion empty_world
                  1%positive eq_refl)).
Defined.

(** ** The methods over the store compute what the methods over values do *)

Lemma same_entries_totals {L L' : Type} (acc : pydict (Stats.t L))
    (acc' : pydict (Stats.t L')) :
  same_entries acc acc' -> same_totals acc acc'.
Proof.
  induction 1 as [|[k s] [k' s'] ? ? [Hk Hs] _ IH]; intros d; simpl; [reflexivity|].
  simpl in Hk, Hs. subst k'. destruct (String.eqb d k); [simpl; now rewrite Hs | apply IH].
Qed.

Lemma same_entries_set {L L' : Type} (acc : pydict (Stats.t L)) (acc' : pydict (Stats.t L'))
    (k : string) (v : Stats.t L) (v' : Stats.t L') :
  same_entries acc acc' -> totals v = totals v' ->
  same_entries (dict_set k v acc) (dict_set k v' acc').
Proof.
  intros H Hv. induction H as [|[k0 s] [k0' s'] ? ? [Hk Hs] Hrest IH]; simpl.
  - constructor; [simpl; auto | constructor].
  - simpl in Hk, Hs. subst k0'. destruct (String.eqb k k0).
    + constructor; [simpl; auto | exact Hrest].
    + constructor; [simpl; auto | exact IH].
Qed.

Lemma calculate_averages_same_entries {L L' : Type} (acc : pydict (Stats.t L))
    (acc' : pydict (Stats.t L')) :
  same_entries acc acc' -> calculate_averages acc = calculate_averages acc'.
Proof.
  induction 1 as [|[k s] [k' s'] ? ? [Hk Hs] _ IH]; simpl; [reflexivity|].
  simpl in Hk, Hs. subst k'. now rewrite (averages_of_totals _ _ Hs), IH.
Qed.

Lemma lists_alive_insert (h : gmap Ref.loc Ref.pyobj) (dept_stats : pydict (Stats.t Ref.loc))
    (l : Ref.loc) (items : list Ref.loc) :
  lists_alive h dept_stats -> lists_alive (<[l := Ref.ListObject items]> h) dept_stats.
Proof.
  unfold lists_alive. intros H. eapply List.Forall_impl; [|exact H].
  intros [k s] [its Hits]. simpl in *.
  destruct (decide (l = Stats.observations s)) as [->|Hne].
  - exists items. apply lookup_insert_eq.
  - exists its. now rewrite lookup_insert_ne.
Qed.

(** The loop over the references accumulates what the fold over the
    observations they denote accumulates. *)
Lemma aggregate_loop_refines (h0 : gmap Ref.loc Ref.pyobj) (items : list Ref.loc)
    (observations : list QueueObservation) :
  denotes h0 items observations ->
  forall dept_stats acc w,
    h0 ⊆ Ref.heap w ->
    lists_outside h0 dept_stats -> lists_alive (Ref.heap w) dept_stats ->
    same_entries dept_stats acc ->
    exists dept_stats' w',
      Ref.aggregate_loop items dept_stats w = (Ok dept_stats', w') /\
      h0 ⊆ Ref.heap w' /\
      same_entries dept_stats' (fold_left aggregate_step observations acc).
Proof.
  induction 1 as [|r o items observations Hr _ IH]; intros ds acc w Hw Hout Halive Hsame;
    simpl.
  - unfold Ref.ret. eauto.
  - unfold Ref.bind at 1. unfold Ref.read_obs at 1.
    rewrite (lookup_weaken _ _ _ _ Hr Hw).
    pose proof (same_entries_totals _ _ Hsame (department o)) as Hd.
    destruct (dict_get (department o) ds) as [s|] eqn:Hs.
    + destruct (dict_get (department o) acc) as [s'|] eqn:Hs'; [|discriminate].
      apply totals_Some in Hd.
      pose proof (dict_get_Some_In _ _ _ Hs) as Hin.
      unfold lists_outside in Hout. unfold lists_alive in Halive.
      pose proof (proj1 (List.Forall_forall _ _) Hout _ Hin) as Hnone.
      destruct (proj1 (List.Forall_forall _ _) Halive _ Hin) as [its Hits].
      simpl in Hnone, Hits.
      unfold Ref.bind at 1. unfold Ref.ret at 1.
      unfold Ref.bind at 1. unfold Ref.list_append at 1. rewrite Hits.
      apply IH.
      * simpl. now apply insert_subseteq_r.
      * apply (Forall_dict_set (fun s => h0 !! Stats.observations s = None));
          [exact Hout | exact Hnone].
      * simpl. apply (Forall_dict_set
                        (fun x => exists items0,
                           <[Stats.observations s := Ref.ListObject (its ++ [r])]>
                             (Ref.heap w) !! Stats.observations x
                           = Some (Ref.ListObject items0))).
        -- now apply lists_alive_insert.
        -- simpl. eexists. apply lookup_insert_eq.
      * unfold aggregate_step. rewrite Hs'.
        apply same_entries_set; [exact Hsame|]. simpl. now apply totals_update.
    + destruct (dict_get (department o) acc) as [s'|] eqn:Hs'; [discriminate|].
      unfold Ref.bind at 1. unfold Ref.bind at 1. unfold Ref.new_list at 1.
      unfold Ref.ret at 1.
      set (l := fresh (dom (Ref.heap w))).
      assert (Hfresh : Ref.heap w !! l = None) by apply not_elem_of_dom, is_fresh.
      assert (Hnone : h0 !! l = None) by (eapply lookup_weaken_None; eassumption).
      unfold Ref.bind at 1. unfold Ref.list_append at 1. simpl.
      rewrite lookup_insert_eq.
      apply IH.
      * simpl. now apply insert_subseteq_r, insert_subseteq_r.
      * apply (Forall_dict_set (fun s => h0 !! Stats.observations s = None));
          [exact Hout | exact Hnone].
      * simpl. apply (Forall_dict_set
                        (fun x => exists items0,
                           <[l := Ref.ListObject ([] ++ [r])]>
                             (<[l := Ref.ListObject []]> (Ref.heap w))
                             !! Stats.observations x
                           = Some (Ref.ListObject items0))).
        -- now apply lists_alive_insert, lists_alive_insert.
        -- simpl. eexists. apply lookup_insert_eq.
      * unfold aggregate_step. rewrite Hs'.
        apply same_entries_set; [exact Hsame|]. reflexivity.
Qed.

Section Returns.
Variable h0 : gmap Ref.loc Ref.pyobj.

Lemma returns_ret {A : Type} (a : A) : returns h0 (Ref.ret a) (Ok a).
Proof. intros w Hw. simpl. auto. Qed.

Lemma returns_raise {A : Type} (e : exn) : returns h0 (@Ref.raise A e) (Raise e).
Proof. intros w Hw. simpl. auto. Qed.

Lemma returns_lift {A : Type} (r : result A) : returns h0 (Ref.lift r) r.
Proof. intros w Hw. simpl. auto. Qed.

Lemma returns_bind {A B : Type} (m : Ref.M A) (k : A -> Ref.M B) (ra : result A)
    (kp : A -> result B) :
  returns h0 m ra -> (forall a, ra = Ok a -> returns h0 (k a) (kp a)) ->
  returns h0 (Ref.bind m k) (result_bind ra kp).
Proof.
  intros Hm Hk w Hw. unfold Ref.bind. destruct (Hm w Hw) as [H1 H2].
  destruct (m w) as [[a|e] w']; simpl in *; subst ra; simpl.
  - exact (Hk a eq_refl w' H2).
  - auto.
Qed.

Lemma returns_bind_ok {A B : Type} (m : Ref.M A) (k : A -> Ref.M B) (a : A)
    (r : result B) :
  returns h0 m (Ok a) -> returns h0 (k a) r -> returns h0 (Ref.bind m k) r.
Proof.
  intros Hm Hk. apply (returns_bind m k (Ok a) (fun _ => r) Hm). now intros a' [= <-].
Qed.


Lemma returns_read_list (l : Ref.loc) (items : list Ref.loc) :
  h0 !! l = Some (Ref.ListObject items) -> returns h0 (Ref.read_list l) (Ok items).
Proof.
  intros Hl w Hw. unfold Ref.read_list. rewrite (lookup_weaken _ _ _ _ Hl Hw). simpl. auto.
Qed.

Lemma returns_read_obs (r : Ref.loc) (o : QueueObservation) :
  h0 !! r = Some (Ref.ObsObject o) -> returns h0 (Ref.read_obs r) (Ok o).
Proof.
  intros Hr w Hw. unfold Ref.read_obs. rewrite (lookup_weaken _ _ _ _ Hr Hw). simpl. auto.
Qed.



Lemma returns_aggregate_loop {B : Type} (items : list Ref.loc)
    (observations : list QueueObservation) (k : pydict (Stats.t Ref.loc) -> Ref.M B)
    (r : result B) :
  denotes h0 items observations ->
  (forall dept_stats, same_entries dept_stats (aggregate observations) ->
     returns h0 (k dept_stats) r) ->
  returns h0 (Ref.bind (Ref.aggregate_loop items []) k) r.
Proof.
  intros Hden Hk w Hw. unfold Ref.bind.
  destruct (aggregate_loop_refines h0 items observations Hden [] [] w Hw
              (List.Forall_nil _) (List.Forall_nil _) (List.Forall2_nil _))
    as (ds & w' & -> & Hw' & Hsame).
  exact (Hk ds Hsame w' Hw').
Qed.

Lemma returns_summary_loop (items : list Ref.loc) (observations : list QueueObservation)
    (i : Z) :
  denotes h0 items observations ->
  returns h0 (Ref.summary_loop i items) (Ok (summary_entries i observations)).
Proof.
  intros Hden. revert i. induction Hden as [|r o items observations Hr _ IH]; intros i; simpl.
  - apply returns_ret.
  - apply (returns_bind _ _ (Ok o) (fun obs => Ok (summary_entry i obs
                                                   ++ summary_entries (i + 1) observations)));
      [now apply returns_read_obs|]. intros o' [= <-].
    apply (returns_bind _ _ (Ok (summary_entries (i + 1) observations))
             (fun lines => Ok (summary_entry i o ++ lines))); [apply IH|].
    intros lines [= <-]. apply returns_ret.
Qed.

Lemma returns_getitem_first (l : Ref.loc) (items : list Ref.loc)
    (observations : list QueueObservation) :
  h0 !! l = Some (Ref.ListObject items) -> denotes h0 items observations ->
  returns h0 (Ref.getitem_first l) (getitem_first observations).
Proof.
  intros Hl Hden. unfold Ref.getitem_first.
  destruct Hden as [|r o items observations Hr _].
  - apply (returns_bind _ _ (Ok []) (fun _ => Raise IndexError));
      [now apply returns_read_list|]. intros its [= <-].
    apply (returns_bind _ _ (Raise IndexError) (fun _ => Raise IndexError));
      [apply returns_lift | discriminate].
  - apply (returns_bind _ _ (Ok (r :: items)) (fun _ => Ok o));
      [now apply returns_read_list|]. intros its [= <-].
    apply (returns_bind _ _ (Ok r) (fun _ => Ok o)); [apply returns_lift|].
    intros r' [= <-]. now apply returns_read_obs.
Qed.

Lemma returns_getitem_last (l : Ref.loc) (items : list Ref.loc)
    (observations : list QueueObservation) :
  h0 !! l = Some (Ref.ListObject items) -> denotes h0 items observations ->
  returns h0 (Ref.getitem_last l) (getitem_last observations).
Proof.
  intros Hl Hden w Hw.
  pose proof (Forall2_last _ _ _ Hden) as Hlast.
  unfold Ref.getitem_last, Ref.bind, Ref.read_list, Ref.lift, Ref.read_obs, getitem_last.
  rewrite (lookup_weaken _ _ _ _ Hl Hw).
  inversion Hlast as [r o Hr Hi Ho | Hi Ho]; simpl.
  - rewrite (lookup_weaken _ _ _ _ Hr Hw). simpl. auto.
  - auto.
Qed.

End Returns.

Lemma select_departments_same_entries {L L' : Type} (acc : pydict (Stats.t L))
    (acc' : pydict (Stats.t L')) :
  same_entries acc acc' -> select_departments acc = select_departments acc'.
Proof.
  intros H. unfold select_departments. now rewrite (calculate_averages_same_entries _ _ H).
Qed.

Section Refinement.
Variable h0 : gmap Ref.loc Ref.pyobj.
Variable l : Ref.loc.
Variable items : list Ref.loc.
Variable observations : list QueueObservation.
Hypothesis Hl : h0 !! l = Some (Ref.ListObject items).
Hypothesis Hden : denotes h0 items observations.

Lemma returns_rule_based_analysis :
  returns h0 (Ref.rule_based_analysis l) (rule_based_analysis observations).
Proof.
  unfold Ref.rule_based_analysis, rule_based_analysis.
  eapply returns_bind_ok; [apply returns_read_list; exact Hl|].
  apply (returns_aggregate_loop h0 items observations); [exact Hden|].
  intros dept_stats Hsame.
  rewrite <- (select_departments_same_entries _ _ Hsame).
  rewrite <- (Forall2_length _ _ _ Hsame), <- (Forall2_length _ _ _ Hden).
  eapply returns_bind; [apply returns_lift|]. intros sel _.
  eapply returns_bind_ok; [apply returns_read_list; exact Hl|].
  eapply returns_bind; [apply (returns_getitem_last h0 l items); assumption|].
  intros oldest _.
  eapply returns_bind; [apply (returns_getitem_first h0 l items); assumption|].
  intros newest _.
  apply returns_ret.
Qed.


Lemma returns_prepare_observation_summary :
  returns h0 (Ref._prepare_observation_summary l)
    (Ok (_prepare_observation_summary observations)).
Proof.
  unfold Ref._prepare_observation_summary, _prepare_observation_summary.
  eapply returns_bind_ok; [apply returns_read_list; exact Hl|].
  eapply returns_bind_ok; [apply returns_summary_loop; exact Hden|].
  eapply returns_bind_ok; [apply returns_read_list; exact Hl|].
  rewrite <- (Forall2_length _ _ _ Hden). apply returns_ret.
Qed.


End Refinement.



(** * Further properties *)

(** ** Stripping *)



Lemma lstrip_head (s : string) (c : ascii) (rest : string) :
  lstrip s = String c rest -> isspace c = false.
Proof.
  induction s as [|c0 s IH]; simpl; [discriminate|].
  destruct (isspace c0) eqn:Hc0; [exact IH|]. now intros [= <- _].
Qed.


Lemma rstrip_head (c : ascii) (s : string) :
  isspace c = false -> exists rest, rstrip (String c s) = String c rest.
Proof.
  intros Hc. simpl. destruct (rstrip s) as [|c' s']; [rewrite Hc|]; eauto.
Qed.




(** A stripped string does not start and does not end with whitespace. *)
Lemma strip_ends (s : string) (c : ascii) (rest : string) :
  strip s = String c rest ->
  isspace c = false /\
  forall pre d, String c rest = pre +:+ String d EmptyString -> isspace d = false.
Proof.
  unfold strip. intros H. split.
  - destruct (lstrip s) as [|c0 r0] eqn:Hl; [discriminate|].
    pose proof (lstrip_head _ _ _ Hl) as Hc0.
    destruct (rstrip_head c0 r0 Hc0) as [r1 Hr]. congruence.
  - rewrite <- H. generalize (lstrip s). clear. intros t.
    induction t as [|c t IH]; intros pre d; simpl.
    + destruct pre; discriminate.
    + destruct (rstrip t) as [|c' t'] eqn:Hr.
      * destruct (isspace c) eqn:Hc; [destruct pre; discriminate|].
        destruct pre as [|p pre]; simpl.
        -- now intros [= <-].
        -- intros [= _ H]. destruct pre; discriminate.
      * destruct pre as [|p pre]; simpl; [discriminate|].
        intros [= _ H]. exact (IH pre d H).
Qed.

(** ** The entry point, beyond the claims *)

(** X1: on a non-empty list of well-formed observations the entry point
    never raises; the model it reports is the configured one when the flag is
    set and the rule-based marker otherwise; a result flagged rule-based has a
    non-empty text, and a result is flagged AI only when an API key is set. *)
Theorem generate_insights_always_returns (self : QueueInsightsService)
    (openai : openai_package) (observations : list QueueObservation) :
  observations <> [] -> List.Forall well_formed observations ->
  exists text flag model_used,
    generate_insights self openai observations = Ok (text, flag, model_used) /\
    model_used = (if flag then model self else rule_based_marker) /\
    (flag = false -> text <> EmptyString) /\
    (flag = true -> truthy (api_key self) = true).
Proof.
  intros Hne Hwf.
  destruct (generate_insights_total self openai observations Hne Hwf)
    as (text & flag & m & Hgi & Htrue & Hfalse).
  exists text, flag, m. split; [exact Hgi|].
  destruct flag.
  - destruct (Htrue eq_refl) as [-> Hkey]. repeat split; auto; discriminate.
  - destruct (Hfalse eq_refl) as [-> Htext]. repeat split; auto; discriminate.
Qed.

Lemma sample_well_formed : well_formed (observation "ER" 17 5 30).
Proof. unfold well_formed, int32_max. simpl. repeat split; try lia. discriminate. Qed.

Lemma generate_insights_always_returns_witness :
  exists text flag model_used,
    generate_insights configured None [observation "ER" 17 5 30]
    = Ok (text, flag, model_used) /\
    model_used = (if flag then model configured else rule_based_marker) /\
    (flag = false -> text <> EmptyString) /\
    (flag = true -> truthy (api_key configured) = true).
Proof.
  apply generate_insights_always_returns.
  - discriminate.
  - constructor; [exact sample_well_formed | constructor].
Defined.

(** X2: with the [openai] package missing, the call raising, a completion
    without choices, or a first choice without content, the entry point
    returns exactly what the rule-based strategy returns. *)
Theorem ai_failure_falls_back (self : QueueInsightsService) (openai : openai_package)
    (observations : list QueueObservation) :
  observations <> [] ->
  (openai = None \/
   exists create, openai = Some create /\
     match create (api_key self)
             (chat_request self (prompt_of (_prepare_observation_summary observations)))
     with
     | Raise _ => True
     | Ok response =>
         match choices response with
         | [] => True
         | c :: _ => content c = None
         end
     end) ->
  generate_insights self openai observations = rule_based_result observations.
Proof.
  intros Hne Hfail.
  apply _generate_ai_insights_raises in Hfail as [e He].
  exact (generate_insights_ai_raises self openai observations e Hne He).
Qed.

Lemma ai_failure_falls_back_witness :
  generate_insights configured (Some (fun _ _ => Raise (OtherException "timeout")))
    [observation "ER" 17 5 30]
  = rule_based_result [observation "ER" 17 5 30].
Proof.
  apply ai_failure_falls_back; [discriminate|].
  right. eexists. split; [reflexivity|]. exact I.
Defined.

(** X3: without an API key ([None] or the empty string) the result does not
    depend on the [openai] package, the model or the token limit, and is never
    flagged AI. *)
Theorem unconfigured_never_uses_ai (self : QueueInsightsService) (openai : openai_package)
    (observations : list QueueObservation) :
  truthy (api_key self) = false ->
  generate_insights self openai observations
  = generate_insights unconfigured None observations /\
  forall text flag model_used,
    generate_insights self openai observations = Ok (text, flag, model_used) ->
    flag = false /\ model_used = rule_based_marker.
Proof.
  intros Hkey. unfold generate_insights. rewrite Hkey. simpl.
  split; [reflexivity|].
  destruct observations as [|o rest].
  - now intros text flag m [= <- <- <-].
  - unfold rule_based_result.
    destruct (_generate_rule_based_insights (o :: rest)); simpl; [|discriminate].
    now intros text flag m [= <- <- <-].
Qed.

Lemma unconfigured_never_uses_ai_witness :
  generate_insights
    {| api_key := Some EmptyString; model := "gpt-4o"; max_tokens := 100 |}
    blank_completion [observation "ER" 17 5 30]
  = generate_insights unconfigured None [observation "ER" 17 5 30].
Proof.
  exact (proj1 (unconfigured_never_uses_ai
                  {| api_key := Some EmptyString; model := "gpt-4o"; max_tokens := 100 |}
                  blank_completion [observation "ER" 17 5 30] eq_refl)).
Defined.



(** ** What the aggregation computes *)

Lemma aggregate_fold_get (d : string) (observations : list QueueObservation)
    (acc : pydict (Stats.t (list QueueObservation))) :
  dict_get d (fold_left aggregate_step observations acc)
  = match rows d observations with
    | [] => dict_get d acc
    | _ :: _ =>
        Some (fold_left
                (fun s o => Stats.update s (number_of_patients o) (average_wait_minutes o)
                              (Stats.observations s ++ [o]))
                (rows d observations)
                (default (Stats.factory []) (dict_get d acc)))
    end.
Proof.
  revert acc. induction observations as [|o rest IH]; intros acc; simpl; [reflexivity|].
  rewrite IH, aggregate_step_get. unfold rows. simpl.
  destruct (String.eqb_spec (department o) d) as [E|Hne].
  - subst d. rewrite String.eqb_refl. simpl.
    destruct (List.filter _ rest); reflexivity.
  - destruct (String.eqb_spec d (department o)) as [E|_]; [congruence | reflexivity].
Qed.

Lemma fold_update_closed (r : list QueueObservation) (s : Stats.t (list QueueObservation)) :
  fold_left
    (fun s o => Stats.update s (number_of_patients o) (average_wait_minutes o)
                  (Stats.observations s ++ [o])) r s
  = {| Stats.total_patients := Stats.total_patients s + sum_Z (map number_of_patients r);
       Stats.total_wait := Stats.total_wait s + sum_Z (map average_wait_minutes r);
       Stats.count := Stats.count s + Z.of_nat (length r);
       Stats.max_wait := fold_left Z.max (map average_wait_minutes r) (Stats.max_wait s);
       Stats.observations := Stats.observations s ++ r |}.
Proof.
  revert s. induction r as [|o r IH]; intros s; simpl.
  - destruct s. simpl. f_equal; try lia. now rewrite app_nil_r.
  - rewrite IH. unfold Stats.update. simpl. f_equal; try lia.
    now rewrite <- app_assoc.
Qed.

Lemma max_of_nonneg (l : list Z) : 0 <= max_of l.
Proof. unfold max_of. induction l; simpl; lia. Qed.

Lemma fold_left_max (l : list Z) (m : Z) :
  0 <= m -> fold_left Z.max l m = Z.max m (max_of l).
Proof.
  revert m. induction l as [|w l IH]; intros m Hm; simpl.
  - lia.
  - rewrite IH by lia. unfold max_of. lia.
Qed.

(** X5: after the aggregation loop a department has an entry exactly when
    some observation names it; the entry holds the sums of patients and of
    waits over the department's observations, their number, the greatest of 0
    and their waits, and those observations in input order. *)
Theorem aggregate_closed_form (d : string) (observations : list QueueObservation) :
  dict_get d (aggregate observations)
  = match rows d observations with
    | [] => None
    | _ :: _ => Some (stats_of_rows (rows d observations))
    end.
Proof.
  unfold aggregate. rewrite aggregate_fold_get. simpl.
  destruct (rows d observations) as [|o r] eqn:Hr; [reflexivity|].
  rewrite fold_update_closed. unfold stats_of_rows.
  cbn [Stats.total_patients Stats.total_wait Stats.count Stats.max_wait Stats.observations
       Stats.factory].
  rewrite fold_left_max by lia.
  pose proof (max_of_nonneg (map average_wait_minutes (o :: r))).
  f_equal. f_equal; lia.
Qed.

(** ** Bounds on the averages *)

Lemma pow2_negative (e : Z) : e <= 0 -> (pow2 e == / inject_Z (2 ^ (- e)))%Q.
Proof.
  intros He. unfold pow2. rewrite Zpower_Qpower by lia.
  rewrite <- Qpower_opp. now rewrite Z.opp_involutive.
Qed.

(** The rounded quotient of [a] by [b] stays between 0 and any integer
    bound of the exact quotient within the range of a 32-bit column. *)
Lemma truediv_bounds (a b M : Z) (q : float) :
  1 <= b -> 0 <= a <= b * M -> M <= int32_max ->
  truediv a b = Ok q -> (0 <= q <= inject_Z M)%Q.
Proof.
  intros Hb Ha HM. unfold truediv.
  destruct (Z.eqb_spec b 0) as [E|_]; [lia|].
  destruct (Z.eqb_spec a 0) as [E|Ha0].
  - intros [= <-]. split; [apply Qle_refl|].
    change 0%Q with (inject_Z 0). rewrite <- Zle_Qle. nia.
  - rewrite (Z.abs_eq a), (Z.abs_eq b) by lia.
    replace (Z.sgn a) with 1 by lia. replace (Z.sgn b) with 1 by lia.
    unfold round_binary64.
    set (e := Z.max (ilog2_quot a b - 52) (-1074)).
    assert (HM0 : 0 <= M) by nia.
    assert (He : e <= -21).
    { assert (Z.log2 a <= 31 + Z.log2 b).
      { rewrite <- Z.log2_mul_pow2 by lia. apply Z.log2_le_mono.
        unfold int32_max in HM. change (2 ^ 31) with 2147483648. nia. }
      pose proof (ilog2_quot_upper a b). lia. }
    unfold round_half_even_scaled.
    replace (Z.max e 0) with 0 by lia. replace (Z.max (- e) 0) with (- e) by lia.
    rewrite !Z.pow_0_r, !Z.mul_1_r, !Z.mul_1_l.
    set (P := 2 ^ (- e)).
    assert (HP : 1 <= P) by (pose proof (Z.pow_pos_nonneg 2 (- e)); lia).
    pose proof (Z.div_mod (a * P) b ltac:(lia)) as Hdm.
    pose proof (Z.mod_pos_bound (a * P) b ltac:(lia)) as Hmod.
    set (k := a * P / b) in *. set (r := a * P mod b) in *.
    assert (Hk0 : 0 <= k) by (apply Z.div_pos; nia).
    assert (Hk : k <= M * P) by (apply Z.div_le_upper_bound; [lia | nia]).
    set (m := if (b <? 2 * r) || (b =? 2 * r) && Z.odd k then k + 1 else k).
    assert (Hm : 0 <= m <= M * P).
    { subst m. destruct (Z.ltb_spec b (2 * r)) as [H1|H1]; simpl.
      - split; [lia|]. destruct (Z.eq_dec k (M * P)) as [E|]; [nia | lia].
      - destruct (Z.eqb_spec b (2 * r)) as [H2|H2]; simpl.
        + destruct (Z.odd k); [|lia]. split; [lia|].
          destruct (Z.eq_dec k (M * P)) as [E|]; [nia | lia].
        + lia. }
    destruct (_ <=? _); [discriminate|]. intros [= <-].
    rewrite (pow2_negative e) by lia. fold P.
    assert (HPQ : (0 < inject_Z P)%Q).
    { change 0%Q with (inject_Z 0). rewrite <- Zlt_Qlt. lia. }
    split.
    + apply Qmult_le_0_compat;
        [change 0%Q with (inject_Z 0); rewrite <- Zle_Qle; lia|].
      apply Qinv_le_0_compat, Qlt_le_weak, HPQ.
    + apply Qle_shift_div_r; [exact HPQ|].
      rewrite <- inject_Z_mult, <- Zle_Qle. lia.
Qed.

Lemma averages_of_bounds {L : Type} (st : Stats.t L) (s : Avg.t) :
  1 <= Stats.count st ->
  0 <= Stats.total_patients st <= Stats.count st * int32_max ->
  0 <= Stats.total_wait st <= Stats.count st * Stats.max_wait st ->
  Stats.max_wait st <= int32_max ->
  averages_of st = Ok s ->
  1 <= Avg.count s /\
  (0 <= Avg.avg_wait s <= inject_Z (Avg.max_wait s))%Q /\
  0 <= Avg.max_wait s <= int32_max /\
  (0 <= Avg.avg_patients s <= inject_Z int32_max)%Q.
Proof.
  intros Hc Hp Hw Hm. unfold averages_of.
  destruct (truediv (Stats.total_patients st) (Stats.count st)) as [ap|] eqn:Hap;
    simpl; [|discriminate].
  destruct (truediv (Stats.total_wait st) (Stats.count st)) as [aw|] eqn:Haw;
    simpl; [|discriminate].
  intros [= <-]. simpl.
  split; [exact Hc|]. split; [exact (truediv_bounds _ _ _ _ Hc Hw Hm Haw)|].
  split; [nia|]. apply (truediv_bounds _ _ _ _ Hc Hp); [lia | exact Hap].
Qed.

(** X6: for well-formed observations every entry of [dept_averages] has a
    positive count, an [avg_wait] between 0 and its [max_wait], a [max_wait]
    within the column range, and an [avg_patients] between 0 and that range:
    rounding never lifts the mean wait above the maximal wait. *)
Theorem averages_within_bounds (observations : list QueueObservation) (a : analysis)
    (d : string) (s : Avg.t) :
  List.Forall well_formed observations ->
  rule_based_analysis observations = Ok a ->
  dict_get d (dept_averages (selected a)) = Some s ->
  1 <= Avg.count s /\
  (0 <= Avg.avg_wait s <= inject_Z (Avg.max_wait s))%Q /\
  0 <= Avg.max_wait s <= int32_max /\
  (0 <= Avg.avg_patients s <= inject_Z int32_max)%Q.
Proof.
  intros Hwf Ha Hd.
  apply rule_based_analysis_compose in Ha as (sel & oldest & newest & Hsel & ->).
  rewrite (proj1 (compose_fields _ _ _ _ _)) in Hd.
  apply select_departments_inv in Hsel as (Hda & _ & _).
  pose proof (calculate_averages_get _ _ d Hda) as Hget.
  destruct (dict_get d (aggregate observations)) as [st|] eqn:Hst; [|congruence].
  destruct Hget as (s' & Hs' & Hd'). rewrite Hd in Hd'. injection Hd' as <-.
  pose proof (aggregate_invariant
                (fun st => 1 <= Stats.count st /\
                           0 <= Stats.total_patients st <= Stats.count st * int32_max /\
                           0 <= Stats.total_wait st <= Stats.count st * Stats.max_wait st /\
                           0 <= Stats.max_wait st <= int32_max)
                well_formed) as Hinv.
  specialize (Hinv ltac:(intros s0 o l [->|(H1 & H2 & H3 & H4)] (_ & Hp & Hw);
                         unfold int32_max in *; simpl; repeat split; nia)
                observations [] Hwf ltac:(constructor)).
  rewrite List.Forall_forall in Hinv.
  destruct (Hinv _ (dict_get_Some_In _ _ _ Hst)) as (H1 & H2 & H3 & H4). simpl in *.
  apply (averages_of_bounds st s); auto; lia.
Qed.

Lemma averages_within_bounds_witness :
  exists a s,
    rule_based_analysis [observation "ER" 17 5 30] = Ok a /\
    dict_get "ER" (dept_averages (selected a)) = Some s /\
    (0 <= Avg.avg_wait s <= inject_Z (Avg.max_wait s))%Q.
Proof.
  eexists. eexists. split; [reflexivity|]. split; [reflexivity|].
  refine (proj1 (proj2 (averages_within_bounds [observation "ER" 17 5 30] _ "ER" _ _ _ _))).
  - constructor; [exact sample_well_formed | constructor].
  - reflexivity.
  - reflexivity.
Defined.

(** ** Layout of the rule-based text *)

Lemma recommendation_is_recommendation (d : string) (s : Avg.t) :
  is_recommendation (recommendation d s) = true.
Proof. unfold recommendation. now repeat destruct (float_gt _ _). Qed.

(** X7: the parts of the rule-based text are, in this order: the title, the
    data summary with the number of observations and of distinct departments
    and the dates of the last and of the first element of the list, the
    findings heading, the longest-wait finding, at most two further findings,
    the recommendation heading, exactly one recommendation, and the note. *)
Theorem insight_parts_layout (observations : list QueueObservation) (a : analysis) :
  rule_based_analysis observations = Ok a ->
  exists oldest newest findings,
    last observations = Some oldest /\
    head observations = Some newest /\
    insight_parts a
    = [ Title; DataSummaryHeading;
        AnalyzedLine (Z.of_nat (length observations))
          (Z.of_nat (length (first_appearance (map department observations))));
        TimePeriodLine (strftime (observed_at oldest) "%Y-%m-%d")
          (strftime (observed_at newest) "%Y-%m-%d");
        KeyFindingsHeading;
        LongestWaitTimes (fst (highest_wait_dept (selected a)))
          (Avg.avg_wait (snd (highest_wait_dept (selected a))))
          (Avg.max_wait (snd (highest_wait_dept (selected a)))) ]
      ++ findings
      ++ [ RecommendationHeading;
           recommendation (fst (highest_wait_dept (selected a)))
             (snd (highest_wait_dept (selected a)));
           RuleBasedNote ] /\
    (length findings <= 2)%nat /\
    List.Forall (fun p => is_recommendation p = false) findings /\
    List.filter is_recommendation (insight_parts a)
    = [ recommendation (fst (highest_wait_dept (selected a)))
          (snd (highest_wait_dept (selected a))) ].
Proof.
  unfold rule_based_analysis.
  destruct (select_departments (aggregate observations)) as [sel|e];
    cbn [result_bind]; [|discriminate].
  unfold getitem_last, getitem_first.
  destruct (last observations) as [oldest|]; cbn [result_bind]; [|discriminate].
  destruct (head observations) as [newest|]; cbn [result_bind]; [|discriminate].
  intros [= <-]. exists oldest, newest.
  assert (Hlen : length (aggregate observations)
                 = length (first_appearance (map department observations))).
  { rewrite <- aggregate_keys. unfold dict_keys. now rewrite length_map. }
  rewrite <- Hlen. unfold compose.
  destruct (highest_wait_dept sel) as [hw_dept hw_stats] eqn:Hhw.
  destruct (highest_volume_dept sel) as [hv_dept hv_stats] eqn:Hhv.
  cbn [selected insight_parts]. rewrite Hhw. cbn [fst snd].
  pose proof (recommendation_is_recommendation hw_dept hw_stats) as Hrec.
  destruct (negb (String.eqb hv_dept hw_dept));
    destruct (select_bottlenecks (dept_averages sel)) as [|b bs].
  - exists [HighestPatientVolume hv_dept (Avg.avg_patients hv_stats)].
    cbn [app List.filter is_recommendation length]. rewrite Hrec.
    repeat split; try reflexivity; try (simpl; lia); repeat constructor.
  - exists [HighestPatientVolume hv_dept (Avg.avg_patients hv_stats);
            PotentialBottlenecks (b :: bs)].
    cbn [app List.filter is_recommendation length]. rewrite Hrec.
    repeat split; try reflexivity; try (simpl; lia); repeat constructor.
  - exists [].
    cbn [app List.filter is_recommendation length]. rewrite Hrec.
    repeat split; try reflexivity; try (simpl; lia); repeat constructor.
  - exists [PotentialBottlenecks (b :: bs)].
    cbn [app List.filter is_recommendation length]. rewrite Hrec.
    repeat split; try reflexivity; try (simpl; lia); repeat constructor.
Qed.

Lemma insight_parts_layout_witness :
  exists a,
    rule_based_analysis [observation "ER" 17 5 30; observation "Lab" 16 9 61] = Ok a /\
    List.filter is_recommendation (insight_parts a) = [StaffingRecommendation "Lab"].
Proof.
  eexists. split; [reflexivity|].
  destruct (insight_parts_layout
              [observation "ER" 17 5 30; observation "Lab" 16 9 61] _ eq_refl)
    as (oldest & newest & findings & _ & _ & _ & _ & _ & H).
  exact H.
Defined.

(** X8: the highest-volume finding is part of the text exactly when the
    highest-volume department differs from the highest-wait department, and
    then it names that department with its [avg_patients]. *)
Theorem highest_volume_finding (observations : list QueueObservation) (a : analysis)
    (d : string) (q : float) :
  rule_based_analysis observations = Ok a ->
  In (HighestPatientVolume d q) (insight_parts a)
  <-> fst (highest_volume_dept (selected a)) <> fst (highest_wait_dept (selected a)) /\
      d = fst (highest_volume_dept (selected a)) /\
      q = Avg.avg_patients (snd (highest_volume_dept (selected a))).
Proof.
  intros Ha.
  apply rule_based_analysis_compose in Ha as (sel & oldest & newest & _ & ->).
  rewrite (proj1 (compose_fields _ _ _ _ _)). unfold compose.
  destruct (highest_wait_dept sel) as [hw_dept hw_stats] eqn:Hhw.
  destruct (highest_volume_dept sel) as [hv_dept hv_stats] eqn:Hhv.
  cbn [insight_parts fst snd].
  assert (Hrec : HighestPatientVolume d q <> recommendation hw_dept hw_stats).
  { unfold recommendation. now repeat destruct (float_gt _ _). }
  rewrite !in_app_iff.
  assert (H1 : ~ In (HighestPatientVolume d q)
                 [ Title; DataSummaryHeading;
                   AnalyzedLine (Z.of_nat (length observations))
                     (Z.of_nat (length (aggregate observations)));
                   TimePeriodLine (strftime oldest "%Y-%m-%d") (strftime newest "%Y-%m-%d");
                   KeyFindingsHeading;
                   LongestWaitTimes hw_dept (Avg.avg_wait hw_stats) (Avg.max_wait hw_stats) ]).
  { intros H. repeat (destruct H as [H|H]; [discriminate|]). exact H. }
  assert (H3 : ~ In (HighestPatientVolume d q)
                 match select_bottlenecks (dept_averages sel) with
                 | [] => []
                 | _ :: _ => [PotentialBottlenecks (select_bottlenecks (dept_averages sel))]
                 end).
  { destruct (select_bottlenecks (dept_averages sel)); intros H;
      repeat (destruct H as [H|H]; [discriminate|]); exact H. }
  assert (H4 : ~ In (HighestPatientVolume d q)
                 [RecommendationHeading; recommendation hw_dept hw_stats; RuleBasedNote]).
  { intros [H|[H|[H|H]]]; try discriminate; [|exact H]. symmetry in H. contradiction. }
  destruct (String.eqb_spec hv_dept hw_dept) as [E|Hne]; cbn [negb].
  - split; [|intros (H & _ & _); contradiction].
    intros [H|[H|[H|H]]]; contradiction.
  - split.
    + intros [H|[[H|H]|[H|H]]]; try contradiction; try tauto.
      injection H as <- <-. auto.
    + intros (_ & -> & ->). right. left. now left.
Qed.

Lemma highest_volume_finding_witness :
  exists a,
    rule_based_analysis [observation "ER" 17 5 30; observation "Lab" 16 2 61] = Ok a /\
    In (HighestPatientVolume "ER" (Avg.avg_patients (snd (highest_volume_dept (selected a)))))
      (insight_parts a).
Proof.
  eexists. split; [reflexivity|].
  apply (highest_volume_finding [observation "ER" 17 5 30; observation "Lab" 16 2 61]);
    [reflexivity|].
  split; [intros H; vm_compute in H; discriminate|]. split; reflexivity.
Defined.

(** ** The value returned over a store *)



(** ** Requests sent and records logged *)

Lemma quiet_ret {A : Type} (a : A) : quiet (Ref.ret a).
Proof. intros w. simpl. auto. Qed.

Lemma quiet_raise {A : Type} (e : exn) : quiet (@Ref.raise A e).
Proof. intros w. simpl. auto. Qed.

Lemma quiet_lift {A : Type} (r : result A) : quiet (Ref.lift r).
Proof. intros w. simpl. auto. Qed.

Lemma quiet_bind {A B : Type} (m : Ref.M A) (k : A -> Ref.M B) :
  quiet m -> (forall a, quiet (k a)) -> quiet (Ref.bind m k).
Proof.
  intros Hm Hk w. unfold Ref.bind. destruct (Hm w) as [H1 H2].
  destruct (m w) as [[a|e] w']; simpl in *.
  - destruct (Hk a w') as [H3 H4]. split; congruence.
  - auto.
Qed.

Lemma quiet_read_list (l : Ref.loc) : quiet (Ref.read_list l).
Proof. intros w. unfold Ref.read_list. destruct (Ref.heap w !! l) as [[o|its]|]; simpl; auto. Qed.

Lemma quiet_read_obs (r : Ref.loc) : quiet (Ref.read_obs r).
Proof. intros w. unfold Ref.read_obs. destruct (Ref.heap w !! r) as [[o|its]|]; simpl; auto. Qed.

Lemma quiet_new_list : quiet Ref.new_list.
Proof. intros w. simpl. auto. Qed.

Lemma quiet_list_append (l r : Ref.loc) : quiet (Ref.list_append l r).
Proof.
  intros w. unfold Ref.list_append. destruct (Ref.heap w !! l) as [[o|its]|]; simpl; auto.
Qed.

Lemma quiet_aggregate_loop (items : list Ref.loc) (dept_stats : pydict (Stats.t Ref.loc)) :
  quiet (Ref.aggregate_loop items dept_stats).
Proof.
  revert dept_stats. induction items as [|r rest IH]; intros dept_stats; simpl.
  - apply quiet_ret.
  - apply quiet_bind; [apply quiet_read_obs|]. intros obs.
    apply quiet_bind.
    + destruct (dict_get (department obs) dept_stats); [apply quiet_ret|].
      apply quiet_bind; [apply quiet_new_list|]. intros l. apply quiet_ret.
    + intros s. apply quiet_bind; [apply quiet_list_append|]. intros _. apply IH.
Qed.

Lemma quiet_summary_loop (i : Z) (items : list Ref.loc) : quiet (Ref.summary_loop i items).
Proof.
  revert i. induction items as [|r rest IH]; intros i; simpl.
  - apply quiet_ret.
  - apply quiet_bind; [apply quiet_read_obs|]. intros obs.
    apply quiet_bind; [apply IH|]. intros lines. apply quiet_ret.
Qed.

Lemma quiet_getitem (l : Ref.loc) : quiet (Ref.getitem_first l) /\ quiet (Ref.getitem_last l).
Proof.
  split; (apply quiet_bind; [apply quiet_read_list|]; intros items;
          apply quiet_bind; [apply quiet_lift|]; intros r; apply quiet_read_obs).
Qed.

Lemma quiet_generate_rule_based_insights (l : Ref.loc) :
  quiet (Ref._generate_rule_based_insights l).
Proof.
  unfold Ref._generate_rule_based_insights, Ref.rule_based_analysis.
  apply quiet_bind; [|intros a; apply quiet_ret].
  apply quiet_bind; [apply quiet_read_list|]. intros items.
  apply quiet_bind; [apply quiet_aggregate_loop|]. intros dept_stats.
  apply quiet_bind; [apply quiet_lift|]. intros sel.
  apply quiet_bind; [apply quiet_read_list|]. intros items'.
  apply quiet_bind; [apply quiet_getitem|]. intros oldest.
  apply quiet_bind; [apply quiet_getitem|]. intros newest. apply quiet_ret.
Qed.

Lemma quiet_prepare_observation_summary (l : Ref.loc) :
  quiet (Ref._prepare_observation_summary l).
Proof.
  unfold Ref._prepare_observation_summary.
  apply quiet_bind; [apply quiet_read_list|]. intros items.
  apply quiet_bind; [apply quiet_summary_loop|]. intros entries.
  apply quiet_bind; [apply quiet_read_list|]. intros items'. apply quiet_ret.
Qed.

Section Performs.
Variable h0 : gmap Ref.loc Ref.pyobj.

Lemma performs_quiet {A : Type} (m : Ref.M A) (r : result A) :
  returns h0 m r -> quiet m -> performs h0 m r [] [].
Proof.
  intros Hr Hq w Hw. destruct (Hr w Hw) as [H1 H2]. destruct (Hq w) as [H3 H4].
  rewrite !app_nil_r. auto.
Qed.

Lemma performs_bind {A B : Type} (m : Ref.M A) (k : A -> Ref.M B) (a : A) (r : result B)
    (c1 c2 : list ChatRequest) (l1 l2 : list Ref.log_record) :
  performs h0 m (Ok a) c1 l1 -> performs h0 (k a) r c2 l2 ->
  performs h0 (Ref.bind m k) r (c1 ++ c2) (l1 ++ l2).
Proof.
  intros Hm Hk w Hw. unfold Ref.bind. destruct (Hm w Hw) as (H1 & H2 & H3 & H4).
  destruct (m w) as [[a'|e] w']; simpl in *; [|discriminate].
  injection H1 as ->. destruct (Hk w' H2) as (H5 & H6 & H7 & H8).
  rewrite H7, H8, H3, H4, !app_assoc. auto.
Qed.

Lemma performs_bind_raise {A B : Type} (m : Ref.M A) (k : A -> Ref.M B) (e : exn)
    (c : list ChatRequest) (l : list Ref.log_record) :
  performs h0 m (Raise e) c l -> performs h0 (Ref.bind m k) (Raise e) c l.
Proof.
  intros Hm w Hw. unfold Ref.bind. destruct (Hm w Hw) as (H1 & H2 & H3 & H4).
  destruct (m w) as [[a'|e'] w']; simpl in *; [discriminate|].
  injection H1 as ->. auto.
Qed.

Lemma performs_try_ok {A : Type} (body : Ref.M A) (handler : exn -> Ref.M A) (a : A)
    (c : list ChatRequest) (l : list Ref.log_record) :
  performs h0 body (Ok a) c l -> performs h0 (Ref.try_except body handler) (Ok a) c l.
Proof.
  intros Hb w Hw. unfold Ref.try_except. destruct (Hb w Hw) as (H1 & H2 & H3 & H4).
  destruct (body w) as [[a'|e'] w']; simpl in *; [auto | discriminate].
Qed.

Lemma performs_try_raise {A : Type} (body : Ref.M A) (handler : exn -> Ref.M A) (e : exn)
    (r : result A) (c1 c2 : list ChatRequest) (l1 l2 : list Ref.log_record) :
  performs h0 body (Raise e) c1 l1 -> performs h0 (handler e) r c2 l2 ->
  performs h0 (Ref.try_except body handler) r (c1 ++ c2) (l1 ++ l2).
Proof.
  intros Hb Hh w Hw. unfold Ref.try_except. destruct (Hb w Hw) as (H1 & H2 & H3 & H4).
  destruct (body w) as [[a'|e'] w']; simpl in *; [discriminate|].
  injection H1 as ->. destruct (Hh w' H2) as (H5 & H6 & H7 & H8).
  rewrite H7, H8, H3, H4, !app_assoc. auto.
Qed.

Lemma performs_logger (r : Ref.log_record) : performs h0 (Ref.logger r) (Ok tt) [] [r].
Proof. intros w Hw. simpl. rewrite app_nil_r. auto. Qed.

Lemma performs_call_api (create : option string -> ChatRequest -> result ChatCompletion)
    (key : option string) (req : ChatRequest) :
  performs h0 (Ref.call_api create key req) (create key req) [req] [].
Proof. intros w Hw. simpl. rewrite app_nil_r. auto. Qed.

End Performs.

Lemma performs_then_quiet (h0 : gmap Ref.loc Ref.pyobj) {A B : Type} (m : Ref.M A)
    (k : A -> Ref.M B) (a : A) (r : result B) (c : list ChatRequest)
    (l : list Ref.log_record) :
  performs h0 m (Ok a) c l -> returns h0 (k a) r -> quiet (k a) ->
  performs h0 (Ref.bind m k) r c l.
Proof.
  intros Hm Hr Hq.
  rewrite <- (app_nil_r c), <- (app_nil_r l).
  apply (performs_bind h0 m k a r c [] l []); [exact Hm|].
  apply performs_quiet; assumption.
Qed.

Section Effects.
Variable h0 : gmap Ref.loc Ref.pyobj.
Variable l : Ref.loc.
Variable items : list Ref.loc.
Variable observations : list QueueObservation.
Hypothesis Hl : h0 !! l = Some (Ref.ListObject items).
Hypothesis Hden : denotes h0 items observations.

Lemma performs_rule_based_result :
  performs h0 (Ref.rule_based_result l) (rule_based_result observations)
    [] [Ref.LogInfo "Using rule-based insight generation"].
Proof.
  unfold Ref.rule_based_result.
  apply (performs_then_quiet h0 _ _ tt); [apply performs_logger| |].
  - unfold rule_based_result.
    eapply returns_bind.
    + unfold Ref._generate_rule_based_insights, _generate_rule_based_insights, result_map.
      eapply returns_bind;
        [apply (returns_rule_based_analysis h0 l items observations Hl Hden)|].
      intros a _. apply returns_ret.
    + intros text _. apply returns_ret.
  - apply quiet_bind; [apply quiet_generate_rule_based_insights|].
    intros text. apply quiet_ret.
Qed.

Lemma performs_generate_ai_insights (self : QueueInsightsService)
    (openai : openai_package) :
  performs h0 (Ref._generate_ai_insights self openai l)
    (_generate_ai_insights self openai observations)
    (match openai with
     | Some _ => [chat_request self (prompt_of (_prepare_observation_summary observations))]
     | None => []
     end) [].
Proof.
  unfold Ref._generate_ai_insights, _generate_ai_insights.
  destruct openai as [create|].
  - apply (performs_bind h0 _ _ (_prepare_observation_summary observations) _ [] _ [] []).
    + apply performs_quiet;
        [apply (returns_prepare_observation_summary h0 l items observations Hl Hden)
        |apply quiet_prepare_observation_summary].
    + pose proof (performs_call_api h0 create (api_key self)
                    (chat_request self (prompt_of (_prepare_observation_summary observations))))
        as Hcall.
      destruct (create (api_key self)
                  (chat_request self (prompt_of (_prepare_observation_summary observations))))
        as [response|e]; simpl.
      * apply (performs_then_quiet h0 _ _ response); [exact Hcall| |].
        -- apply returns_lift.
        -- apply quiet_lift.
      * apply performs_bind_raise. exact Hcall.
  - apply performs_quiet; [apply returns_raise | apply quiet_raise].
Qed.

End Effects.

Lemma performs_generate_insights (h0 : gmap Ref.loc Ref.pyobj) (l : Ref.loc)
    (items : list Ref.loc) (observations : list QueueObservation)
    (self : QueueInsightsService) (openai : openai_package) :
  h0 !! l = Some (Ref.ListObject items) -> denotes h0 items observations ->
  performs h0 (Ref.generate_insights self openai l)
    (generate_insights self openai observations)
    (requests_of self openai observations) (records_of self openai observations).
Proof.
  intros Hl Hden. unfold Ref.generate_insights.
  pose proof (performs_rule_based_result h0 l items observations Hl Hden) as Hrb.
  pose proof (performs_generate_ai_insights h0 l items observations Hl Hden self openai)
    as Hai.
  apply (performs_bind h0 _ _ items _ [] _ [] _).
  { apply performs_quiet; [apply returns_read_list; exact Hl | apply quiet_read_list]. }
  unfold generate_insights, requests_of, records_of.
  destruct Hden as [|r o items' observations' Hr Hrest].
  - destruct openai; apply performs_quiet; try apply returns_ret; apply quiet_ret.
  - destruct (truthy (api_key self)).
    + destruct (_generate_ai_insights self openai (o :: observations')) as [text|e].
      * apply performs_try_ok.
        replace (match openai with
                 | Some _ =>
                     [chat_request self
                        (prompt_of (_prepare_observation_summary (o :: observations')))]
                 | None => []
                 end)
          with ((match openai with
                 | Some _ =>
                     [chat_request self
                        (prompt_of (_prepare_observation_summary (o :: observations')))]
                 | None => []
                 end) ++ []) by apply app_nil_r.
        apply (performs_bind h0 _ _ text _ _ [] []
                 [Ref.LogInfo ("Generated AI insights using " +:+ model self)]);
          [destruct openai; exact Hai|].
        apply (performs_then_quiet h0 _ _ tt); [apply performs_logger| |].
        -- apply returns_ret.
        -- apply quiet_ret.
      * replace (match openai with
                 | Some _ =>
                     [chat_request self
                        (prompt_of (_prepare_observation_summary (o :: observations')))]
                 | None => []
                 end)
          with ((match openai with
                 | Some _ =>
                     [chat_request self
                        (prompt_of (_prepare_observation_summary (o :: observations')))]
                 | None => []
                 end) ++ ([] ++ [])) by (simpl; apply app_nil_r).
        apply (performs_try_raise h0 _ _ e _ _ ([] ++ []) []
                 ([Ref.LogWarning "AI generation failed, falling back to rules: " e]
                  ++ [Ref.LogInfo "Using rule-based insight generation"])).
        -- apply performs_bind_raise. destruct openai; exact Hai.
        -- apply (performs_bind h0 _ _ tt); [apply performs_logger | exact Hrb].
    + destruct openai; exact Hrb.
Qed.

Lemma performs_snapshot (self : QueueInsightsService) (openai : openai_package)
    (w : Ref.world) (l : Ref.loc) (observations : list QueueObservation) :
  Ref.snapshot (Ref.heap w) l = Some observations ->
  performs (Ref.heap w) (Ref.generate_insights self openai l)
    (generate_insights self openai observations)
    (requests_of self openai observations) (records_of self openai observations).
Proof.
  unfold Ref.snapshot. destruct (Ref.heap w !! l) as [[o|items]|] eqn:Hl; try discriminate.
  rewrite mapM_Some. intros Hitems.
  apply (performs_generate_insights (Ref.heap w) l items observations self openai Hl).
  eapply Forall2_impl; [exact Hitems|]. simpl. intros r o Hr.
  destruct (Ref.heap w !! r) as [[o'|its]|]; congruence.
Qed.



(** X11: one call of the entry point writes to the logger, after the records
    already there: nothing on an empty list; with no API key one info record
    (rule-based generation); with a key, one info record naming the model when
    the AI path returns, and when it raises a warning carrying the exception
    followed by the rule-based info record. *)
Theorem records_logged_by_generate_insights (self : QueueInsightsService)
    (openai : openai_package) (w : Ref.world) (l : Ref.loc)
    (observations : list QueueObservation) :
  Ref.snapshot (Ref.heap w) l = Some observations ->
  Ref.log (snd (Ref.generate_insights self openai l w))
  = Ref.log w ++ records_of self openai observations.
Proof.
  intros Hsnap.
  destruct (performs_snapshot self openai w l observations Hsnap w) as (_ & _ & _ & H);
    [reflexivity|].
  exact H.
Qed.

Lemma records_logged_by_generate_insights_witness :
  Ref.log (snd (Ref.generate_insights configured None 1%positive sample_world))
  = [Ref.LogWarning "AI generation failed, falling back to rules: "
       (OtherException "OpenAI package not installed. Install with: pip install openai");
     Ref.LogInfo "Using rule-based insight generation"].
Proof.
  exact (records_logged_by_generate_insights configured None
           sample_world 1%positive
           [observation "ER" 17 5 30; observation "Lab" 16 2 61] eq_refl).
Defined.

(** ** The schema validators *)





(** ** The observation summary of the prompt *)

Lemma summary_entries_app (i : Z) (l1 l2 : list QueueObservation) :
  summary_entries i (l1 ++ l2)
  = summary_entries i l1 ++ summary_entries (i + Z.of_nat (length l1)) l2.
Proof.
  revert i. induction l1 as [|o l1 IH]; intros i.
  - simpl. now rewrite Z.add_0_r.
  - cbn [summary_entries app length]. rewrite IH, <- app_assoc.
    do 3 f_equal. lia.
Qed.

Lemma summary_entries_length (i : Z) (observations : list QueueObservation) :
  length (summary_entries i observations)
  = (length observations
     + length (List.filter (fun o => truthy (notes o)) observations))%nat.
Proof.
  revert i. induction observations as [|o rest IH]; intros i; [reflexivity|].
  cbn [summary_entries List.filter]. rewrite length_app, IH. unfold summary_entry.
  destruct (truthy (notes o)); simpl; lia.
Qed.

(** X14: in the summary sent to the model, the observation at position k
    (counted from 1) is introduced by a line numbered k, whatever notes the
    observations before it carry, and is followed by a notes line exactly when
    its notes are non-empty; the entries stand between the heading with its
    separator and the separator with the total, which is the length of the
    list; no other line is produced. *)
Theorem summary_numbers_by_position (before after : list QueueObservation)
    (obs : QueueObservation) :
  _prepare_observation_summary (before ++ obs :: after)
  = join NL
      ([ "Queue Observations:"; separator ]
       ++ summary_entries 1 before
       ++ summary_entry (Z.of_nat (length before) + 1) obs
       ++ summary_entries (Z.of_nat (length before) + 2) after
       ++ [ separator;
            "Total observations: "
            +:+ str_int (Z.of_nat (length before) + 1 + Z.of_nat (length after)) ]) /\
  length (summary_entry (Z.of_nat (length before) + 1) obs)
  = (if truthy (notes obs) then 2%nat else 1%nat) /\
  length (summary_entries 1 (before ++ obs :: after))
  = (length (before ++ obs :: after)
     + length (List.filter (fun o => truthy (notes o)) (before ++ obs :: after)))%nat.
Proof.
  split; [|split].
  - unfold _prepare_observation_summary.
    rewrite summary_entries_app. cbn [summary_entries].
    rewrite length_app. cbn [length].
    replace (1 + Z.of_nat (length before)) with (Z.of_nat (length before) + 1) by lia.
    replace (Z.of_nat (length before) + 1 + 1) with (Z.of_nat (length before) + 2) by lia.
    replace (Z.of_nat (length before + S (length after)))
      with (Z.of_nat (length before) + 1 + Z.of_nat (length after)) by lia.
    rewrite <- !app_assoc. reflexivity.
  - unfold summary_entry. destruct (truthy (notes obs)); reflexivity.
  - apply summary_entries_length.
Qed.

(** ** Exceptions of the rule-based strategy *)



